(** * Image-URI resolution and the Lambda pipeline step of the SageMaker SDK

    A shallow embedding of [sagemaker/image_uris.py] and
    [sagemaker/workflow/lambda_step.py], and the properties of both that
    the specification of the package states.

    Conventions of the embedding.
    - A Python [str] is a Rocq [string]; its characters are read as the
      code points 0..255.
    - A value that is a [str] or [None] is an [option string] ([pystr]).
    - A raising computation is a [result]: [Ok v] or [Raise e], where [e]
      records the class of the Python exception and, for [ValueError],
      the text of its message.
    - A dict is an association list in insertion order.
    - Calls to [logger] have no effect on the result and are left out; the
      evaluation of their arguments is kept where it can raise. *)

From Stdlib Require Import String Ascii List Bool Arith Lia.
Import ListNotations.
Local Open Scope list_scope.
Local Open Scope string_scope.

Set Implicit Arguments.

(* ===================================================================== *)
(** ** Python values and exceptions                                        *)
(* ===================================================================== *)

Definition pystr := option string.

(** [bool(x)] for a [str] or [None]. *)
Definition truthy (x : pystr) : bool :=
  match x with
  | Some s => negb (s =? "")
  | None => false
  end.

(** [x is None] *)
Definition is_none (x : pystr) : bool :=
  match x with
  | Some _ => false
  | None => true
  end.

(** [x == y] *)
Definition pystr_eqb (x y : pystr) : bool :=
  match x, y with
  | Some a, Some b => a =? b
  | None, None => true
  | _, _ => false
  end.

(** [str(x)], as [format] and f-strings apply it. *)
Definition str_of (x : pystr) : string :=
  match x with
  | Some s => s
  | None => "None"
  end.

(** [x in l] for a list (or a keys view) of strings. *)
Definition str_in (s : string) (l : list string) : bool :=
  existsb (String.eqb s) l.

Definition py_in (x : pystr) (l : list string) : bool :=
  match x with
  | Some s => str_in s l
  | None => false
  end.

(** The exceptions.  [ValueError msg] is an instance of [ValueError] whose
    [str] is [msg]; [OtherError cls msg] is an exception of a collaborator
    that is of class [cls], not an instance of [ValueError], and whose [str]
    is [msg]. *)
Inductive exn :=
| ValueError (msg : string)
| KeyError (key : pystr)
| TypeError
| AttributeError
| IndexError
| UnboundLocalError (name : string)
| OSError
| OtherError (cls msg : string)
| ShapeError.

Inductive result (A : Type) :=
| Ok (a : A)
| Raise (e : exn).

Arguments Ok {A} a.
Arguments Raise {A} e.

Definition bind {A B : Type} (m : result A) (f : A -> result B) : result B :=
  match m with
  | Ok a => f a
  | Raise e => Raise e
  end.

Declare Scope result_scope.
Delimit Scope result_scope with result.
Notation "x <- m ;; k" := (bind m (fun x => k))
  (at level 61, m at next level, right associativity) : result_scope.
Notation "m ;;; k" := (bind m (fun _ => k))
  (at level 61, right associativity) : result_scope.
Local Open Scope result_scope.

(* ===================================================================== *)
(** ** Strings                                                             *)
(* ===================================================================== *)

(** [s.startswith(p)]. *)
Definition startswith (s p : string) : bool := String.prefix p s.

Definition in_range (lo hi : nat) (c : ascii) : bool :=
  ((lo <=? nat_of_ascii c) && (nat_of_ascii c <=? hi))%nat.

(** [ch.lower()] on the code points below 256: [A-Z] and the capital
    letters of Latin-1 ([U+00C0]..[U+00DE] without the multiplication
    sign [U+00D7]) move up by 32. *)
Definition lower_char (c : ascii) : ascii :=
  if in_range 65 90 c
     || (in_range 192 222 c && negb (nat_of_ascii c =? 215)%nat)
  then ascii_of_nat (nat_of_ascii c + 32)
  else c.

Fixpoint lower (s : string) : string :=
  match s with
  | EmptyString => EmptyString
  | String c s' => String (lower_char c) (lower s')
  end.

(** [needle in hay] *)
Fixpoint contains (needle hay : string) : bool :=
  String.prefix needle hay
  || match hay with
     | String _ hay' => contains needle hay'
     | EmptyString => false
     end.

(* ===================================================================== *)
(** ** Regular expressions, as [re.match] runs them                        *)
(* ===================================================================== *)

Module Re.

(** The fragment of Python's pattern syntax that the package uses.
    [Star] is the greedy [*]; [Group n r] is the [n]-th capturing
    group; [Bol] and [Eol] are [^] and [$] without [re.MULTILINE]. *)
Inductive regex :=
| Empty
| Class (p : ascii -> bool)
| Seq (r1 r2 : regex)
| Alt (r1 r2 : regex)
| Star (r : regex)
| Group (n : nat) (r : regex)
| Bol
| Eol.

Definition Chr (c : ascii) : regex := Class (Ascii.eqb c).
Definition Plus (r : regex) : regex := Seq r (Star r).
Definition Opt (r : regex) : regex := Alt r Empty.

Fixpoint Lit (w : string) : regex :=
  match w with
  | EmptyString => Empty
  | String c w' => Seq (Chr c) (Lit w')
  end.

(** [\d] on code points below 256: the ASCII digits. *)
Definition digit (c : ascii) : bool := in_range 48 57 c.

(** [a-z] inside a character set. *)
Definition a_z (c : ascii) : bool := in_range 97 122 c.

(** [\w] on code points below 256: the characters Unicode counts as
    alphanumeric, and the underscore. *)
Definition word (c : ascii) : bool :=
  in_range 48 57 c || in_range 65 90 c || (nat_of_ascii c =? 95)%nat
  || in_range 97 122 c || (nat_of_ascii c =? 170)%nat || in_range 178 179 c
  || (nat_of_ascii c =? 181)%nat || in_range 185 186 c || in_range 188 190 c
  || in_range 192 214 c || in_range 216 246 c || in_range 248 255 c.

(** [.] without [re.DOTALL]: anything but a line feed. *)
Definition dot (c : ascii) : bool := negb (nat_of_ascii c =? 10)%nat.

(** [$] holds at the end of the string and just before a line feed that
    ends it. *)
Definition at_eol (s : string) : bool :=
  match s with
  | EmptyString => true
  | String c EmptyString => (nat_of_ascii c =? 10)%nat
  | _ => false
  end.

Definition captures := list (nat * string).

Definition cont := nat -> string -> captures -> option captures.

(** The loop of a greedy star whose body runs as [step]: one more
    iteration is tried before the rest of the pattern, [k]; an iteration
    that consumes nothing is abandoned.  [fuel] bounds the number of
    iterations and is never the reason to stop when it exceeds the
    length of the subject. *)
Fixpoint star_loop (step : nat -> string -> captures -> cont -> option captures)
    (k : cont) (fuel : nat) (pos : nat) (s : string) (c : captures)
    : option captures :=
  match fuel with
  | O => k pos s c
  | S fuel' =>
      match
        step pos s c
          (fun pos' s' c' =>
             if (pos <? pos')%nat
             then star_loop step k fuel' pos' s' c'
             else None)
      with
      | Some res => Some res
      | None => k pos s c
      end
  end.

(** The backtracking matcher.  [exec r pos s c k] runs [r] on the rest
    [s] of the subject, which starts at offset [pos], and hands every
    way of matching, in the order the engine tries them, to the
    continuation [k] until one of them succeeds. *)
Fixpoint exec (r : regex) (pos : nat) (s : string) (c : captures)
    (k : cont) {struct r} : option captures :=
  match r with
  | Empty => k pos s c
  | Class p =>
      match s with
      | String a s' => if p a then k (S pos) s' c else None
      | EmptyString => None
      end
  | Seq r1 r2 =>
      exec r1 pos s c (fun pos' s' c' => exec r2 pos' s' c' k)
  | Alt r1 r2 =>
      match exec r1 pos s c k with
      | Some res => Some res
      | None => exec r2 pos s c k
      end
  | Star r1 => star_loop (exec r1) k (S (String.length s)) pos s c
  | Group n r1 =>
      exec r1 pos s c
        (fun pos' s' c' =>
           k pos' s' ((n, substring 0 (pos' - pos) s) :: c'))
  | Bol => if (pos =? 0)%nat then k pos s c else None
  | Eol => if at_eol s then k pos s c else None
  end.

(** [re.match(pattern, s)]: the match is anchored at offset 0 and need
    not reach the end of the subject. *)
Definition re_match (r : regex) (s : string) : option captures :=
  exec r 0 s [] (fun _ _ c => Some c).

(** [m.group(n)], [m[n]] for a group that took part in the match. *)
Fixpoint group (n : nat) (c : captures) : option string :=
  match c with
  | [] => None
  | (m, s) :: c' => if (m =? n)%nat then Some s else group n c'
  end.

(** *** A relational reading of the matcher

    [matches r st st'] holds when [r] can take the matcher from the state
    [st] to the state [st']; a state is the offset, the rest of the
    subject and the captures. *)
Definition state : Type := nat * string * captures.

Inductive matches : regex -> state -> state -> Prop :=
| M_Empty st : matches Empty st st
| M_Class p a pos s c :
    p a = true -> matches (Class p) (pos, String a s, c) (S pos, s, c)
| M_Seq r1 r2 st1 st2 st3 :
    matches r1 st1 st2 -> matches r2 st2 st3 -> matches (Seq r1 r2) st1 st3
| M_Alt_l r1 r2 st1 st2 : matches r1 st1 st2 -> matches (Alt r1 r2) st1 st2
| M_Alt_r r1 r2 st1 st2 : matches r2 st1 st2 -> matches (Alt r1 r2) st1 st2
| M_Star_stop r st : matches (Star r) st st
| M_Star_more r st1 st2 st3 :
    matches r st1 st2 -> (fst (fst st1) < fst (fst st2))%nat ->
    matches (Star r) st2 st3 -> matches (Star r) st1 st3
| M_Group n r pos s c pos' s' c' :
    matches r (pos, s, c) (pos', s', c') ->
    matches (Group n r) (pos, s, c)
      (pos', s', (n, substring 0 (pos' - pos) s) :: c')
| M_Bol s c : matches Bol (0, s, c) (0, s, c)
| M_Eol pos s c : at_eol s = true -> matches Eol (pos, s, c) (pos, s, c).

(** A pattern without capturing groups. *)
Fixpoint groupless (r : regex) : bool :=
  match r with
  | Seq r1 r2 | Alt r1 r2 => groupless r1 && groupless r2
  | Star r1 => groupless r1
  | Group _ _ => false
  | _ => true
  end.

(** Every character of [s] is in the class [p]. *)
Fixpoint all_chars (p : ascii -> bool) (s : string) : bool :=
  match s with
  | EmptyString => true
  | String a s' => p a && all_chars p s'
  end.

(** [s] does not go on with a character of the class [p]. *)
Definition stops (p : ascii -> bool) (s : string) : bool :=
  match s with
  | EmptyString => true
  | String a _ => negb (p a)
  end.

End Re.

(** [^ml[\._]([a-z\d]+)\.?\w*$] *)
Definition instance_type_pattern : Re.regex :=
  Re.Seq Re.Bol
 (Re.Seq (Re.Lit "ml")
 (Re.Seq (Re.Class (fun c => Ascii.eqb c "."%char || Ascii.eqb c "_"%char))
 (Re.Seq (Re.Group 1 (Re.Plus (Re.Class (fun c => Re.a_z c || Re.digit c))))
 (Re.Seq (Re.Opt (Re.Chr "."%char))
 (Re.Seq (Re.Star (Re.Class Re.word))
         Re.Eol))))).

(** The pattern of [retrieve]: [^], a first group [pytorch|tensorflow], a
    second group that is a greedy star of [.], and [$]. *)
Definition base_framework_pattern : Re.regex :=
  Re.Seq Re.Bol
 (Re.Seq (Re.Group 1 (Re.Alt (Re.Lit "pytorch") (Re.Lit "tensorflow")))
 (Re.Seq (Re.Group 2 (Re.Star (Re.Class Re.dot)))
         Re.Eol)).

(** The family of an instance type: [match[1]] of
    [re.match(r"^ml[\._]([a-z\d]+)\.?\w*$", instance_type)]. *)
Definition instance_family (instance_type : string) : option string :=
  match Re.re_match instance_type_pattern instance_type with
  | Some c => Re.group 1 c
  | None => None
  end.

(* ===================================================================== *)
(** ** The configuration files                                             *)
(* ===================================================================== *)

(** What [json.load] returns for the files under [image_uri_config/]:
    strings, arrays of strings and objects.  An object is the list of its
    items in the order of the file; its keys are distinct. *)
#[warnings="-register-all"]
Inductive json :=
| JStr (s : string)
| JList (l : list string)
| JDict (d : list (string * json)).

Definition dict := list (string * json).

Definition is_some {A : Type} (x : option A) : bool :=
  match x with
  | Some _ => true
  | None => false
  end.

(** [d.get(k)] *)
Fixpoint dict_get (d : dict) (k : string) : option json :=
  match d with
  | [] => None
  | (k', v) :: d' => if k' =? k then Some v else dict_get d' k
  end.

(** [d.keys()] *)
Definition keys (d : dict) : list string := map fst d.

(** [k in d] *)
Definition has_key (d : dict) (k : string) : bool := str_in k (keys d).

(** [d[k]], for a key that is a [str] or [None]. *)
Definition getitem (d : dict) (k : pystr) : result json :=
  match k with
  | Some s =>
      match dict_get d s with
      | Some v => Ok v
      | None => Raise (KeyError k)
      end
  | None => Raise (KeyError None)
  end.

(** [bool(v)] *)
Definition json_truthy (v : json) : bool :=
  match v with
  | JStr s => negb (s =? "")
  | JList l => negb (Nat.eqb (List.length l) 0)
  | JDict d => negb (Nat.eqb (List.length d) 0)
  end.

(** The code reads a value of the configuration as the object, array or
    string that the files hold at that place.  [ShapeError] stands for a
    file that holds something else there, on which Python raises
    [TypeError] or [AttributeError] at this or a later step, or goes on
    with the value; the embedding does not follow it further. *)
Definition as_dict (v : json) : result dict :=
  match v with
  | JDict d => Ok d
  | _ => Raise ShapeError
  end.

Definition as_list (v : json) : result (list string) :=
  match v with
  | JList l => Ok l
  | _ => Raise ShapeError
  end.

Definition as_str (v : json) : result string :=
  match v with
  | JStr s => Ok s
  | _ => Raise ShapeError
  end.

(* ===================================================================== *)
(** ** [sagemaker/image_uris.py]                                           *)
(* ===================================================================== *)

Module ImageUris.

Definition HUGGING_FACE_FRAMEWORK : string := "huggingface".

(** The text of the [ValueError] of [_validate_arg]. *)
Definition unsupported_message (arg_name : string) (arg : pystr)
    (available_options : list string) : string :=
  "Unsupported " ++ arg_name ++ ": " ++ str_of arg
  ++ ". You may need to upgrade your SDK version "
  ++ "(pip install -U sagemaker) for newer " ++ arg_name
  ++ "s. Supported " ++ arg_name ++ "(s): "
  ++ String.concat ", " available_options ++ ".".

Definition _validate_arg (arg : pystr) (available_options : list string)
    (arg_name : string) : result unit :=
  if negb (py_in arg available_options)
  then Raise (ValueError (unsupported_message arg_name arg available_options))
  else Ok tt.

Definition _format_tag (tag_prefix processor py_version container_version
    : pystr) : string :=
  String.concat "-"
    (map str_of
       (filter truthy [tag_prefix; processor; py_version; container_version])).

Definition _validate_accelerator_type (accelerator_type : string)
    : result unit :=
  if negb (startswith accelerator_type "ml.eia")
     && negb (accelerator_type =? "local_sagemaker_notebook")
  then Raise (ValueError
         ("Invalid SageMaker Elastic Inference accelerator type: "
          ++ accelerator_type
          ++ ". See https://docs.aws.amazon.com/sagemaker/latest/dg/ei.html"))
  else Ok tt.

(** [set(l) == {"training", "inference"}] *)
Definition is_training_inference (l : list string) : bool :=
  forallb (fun s => (s =? "training") || (s =? "inference")) l
  && str_in "training" l && str_in "inference" l.

Definition _version_for_config (version : pystr) (config : dict)
    : result pystr :=
  match dict_get config "version_aliases" with
  | Some aliases =>
      aliases <- as_dict aliases ;;
      if py_in version (keys aliases)
      then v <- getitem aliases version ;; v <- as_str v ;; Ok (Some v)
      else Ok version
  | None => Ok version
  end.

Definition _validate_version_and_set_if_needed (version : pystr)
    (config : dict) (framework : string) : result pystr :=
  versions <- getitem config (Some "versions") ;;
  versions <- as_dict versions ;;
  let available_versions := keys versions in
  aliases <- match dict_get config "version_aliases" with
             | Some a => as_dict a
             | None => Ok []
             end ;;
  let aliased_versions := keys aliases in
  if Nat.eqb (List.length available_versions) 1
     && negb (py_in version aliased_versions)
  then Ok (hd_error available_versions)
  else
    _validate_arg version (available_versions ++ aliased_versions)%list
      (framework ++ " version") ;;;
    Ok version.

Definition _registry_from_region (region : string) (registry_dict : dict)
    : result string :=
  _validate_arg (Some region) (keys registry_dict) "region" ;;;
  v <- getitem registry_dict (Some region) ;;
  as_str v.

Definition invalid_instance_type_message (instance_type : string) : string :=
  "Invalid SageMaker instance type: " ++ instance_type
  ++ ". For options, see: "
  ++ "https://aws.amazon.com/sagemaker/pricing/instance-types".

Definition empty_instance_type_message : string :=
  "Empty SageMaker instance type. For options, see: "
  ++ "https://aws.amazon.com/sagemaker/pricing/instance-types".

Definition _processor (instance_type : pystr)
    (available_processors : list string) : result pystr :=
  if Nat.eqb (List.length available_processors) 0
  then Ok None
  else if Nat.eqb (List.length available_processors) 1
          && negb (truthy instance_type)
  then Ok (hd_error available_processors)
  else
    match instance_type with
    | None => Raise (ValueError empty_instance_type_message)
    | Some "" => Raise (ValueError empty_instance_type_message)
    | Some instance_type =>
        processor <-
          (if startswith instance_type "local"
           then Ok (if instance_type =? "local" then "cpu" else "gpu")
           else
             match instance_family instance_type with
             | Some family =>
                 if str_in family available_processors
                 then Ok family
                 else if startswith family "inf"
                 then Ok "inf"
                 else
                   match family with
                   | String c _ =>
                       if Ascii.eqb c "g" || Ascii.eqb c "p"
                       then Ok "gpu"
                       else Ok "cpu"
                   | EmptyString => Raise IndexError
                   end
             | None =>
                 Raise (ValueError
                          (invalid_instance_type_message instance_type))
             end) ;;
        _validate_arg (Some processor) available_processors "processor" ;;;
        Ok (Some processor)
    end.

Definition _should_auto_select_container_version (instance_type : pystr)
    (distribution : option (list string)) : bool :=
  let p4d :=
    match instance_type with
    | Some it =>
        if truthy instance_type
        then match instance_family it with
             | Some family => family =? "p4d"
             | None => false
             end
        else false
    | None => false
    end in
  let smdistributed :=
    match distribution with
    | Some d =>
        if negb (Nat.eqb (List.length d) 0)
        then str_in "smdistributed" d
        else false
    | None => false
    end in
  p4d || smdistributed.

(** The legacy table of [retrieve]: the container version that goes with
    a framework and tag on [p4d] instances and with [smdistributed]. *)
Definition container_versions : list (string * string) :=
  [ ("tensorflow-2.3-gpu-py37", "cu110-ubuntu18.04-v3");
    ("tensorflow-2.3.1-gpu-py37", "cu110-ubuntu18.04");
    ("tensorflow-2.3.2-gpu-py37", "cu110-ubuntu18.04");
    ("tensorflow-1.15-gpu-py37", "cu110-ubuntu18.04-v8");
    ("tensorflow-1.15.4-gpu-py37", "cu110-ubuntu18.04");
    ("tensorflow-1.15.5-gpu-py37", "cu110-ubuntu18.04");
    ("mxnet-1.8-gpu-py37", "cu110-ubuntu16.04-v1");
    ("mxnet-1.8.0-gpu-py37", "cu110-ubuntu16.04");
    ("pytorch-1.6-gpu-py36", "cu110-ubuntu18.04-v3");
    ("pytorch-1.6.0-gpu-py36", "cu110-ubuntu18.04");
    ("pytorch-1.6-gpu-py3", "cu110-ubuntu18.04-v3");
    ("pytorch-1.6.0-gpu-py3", "cu110-ubuntu18.04") ].

Fixpoint lookup (table : list (string * string)) (key : string)
    : option string :=
  match table with
  | [] => None
  | (k, v) :: table' => if k =? key then Some v else lookup table' key
  end.

(** Lines 141 to 158 of [retrieve]: the tag after the correction for
    auto-selected container versions. *)
Definition auto_select_tag (framework tag : string) (instance_type : pystr)
    (distribution : option (list string)) : string :=
  if _should_auto_select_container_version instance_type distribution
  then
    let key := String.concat "-" [framework; tag] in
    match lookup container_versions key with
    | Some suffix => String.concat "-" [tag; suffix]
    | None => tag
    end
  else tag.

(** Lines 117 to 132 of [retrieve]: the prefix of the tag. *)
Definition tag_prefix_of (framework : string) (version_config : dict)
    (original_version version base_framework_version : pystr)
    (repo : string) : result pystr :=
  if framework =? HUGGING_FACE_FRAMEWORK
  then
    match base_framework_version with
    | None => Raise TypeError
    | Some base =>
        match Re.re_match base_framework_pattern base with
        | None => Raise AttributeError
        | Some m =>
            let pt_or_tf_version := Re.group 2 m in
            let _version :=
              if str_in repo
                   [ "huggingface-pytorch-trcomp-training";
                     "huggingface-tensorflow-trcomp-training" ]
              then version
              else original_version in
            Ok (Some (str_of pt_or_tf_version ++ "-transformers"
                      ++ str_of _version))
        end
    end
  else
    match dict_get version_config "tag_prefix" with
    | Some p => p <- as_str p ;; Ok (Some p)
    | None => Ok version
    end.

Section Resolver.

(** The collaborators of the resolver that live outside of it:
    - [config_for_framework], which opens and parses the file
      [image_uri_config/<framework>.json];
    - [ecr_hostname region], the ["hostname"] of
      [utils._botocore_resolver().construct_endpoint("ecr", region)];
    - [SPARK_NAME], the constant of [sagemaker.spark.defaults]. *)
Variable config_for_framework : string -> result dict.
Variable ecr_hostname : string -> result string.
Variable SPARK_NAME : string.

Definition _config_for_framework_and_scope (framework : string)
    (image_scope accelerator_type : pystr) : result dict :=
  config <- config_for_framework framework ;;
  image_scope <-
    (if truthy accelerator_type
     then _validate_accelerator_type (str_of accelerator_type) ;;;
          Ok (Some "eia")
     else Ok image_scope) ;;
  (* [config.get("scope", config.keys())]: a list, or a view of the
     keys, which has no subscript *)
  let scope_declared := has_key config "scope" in
  available_scopes <-
    match dict_get config "scope" with
    | Some l => as_list l
    | None => Ok (keys config)
    end ;;
  image_scope <-
    (if Nat.eqb (List.length available_scopes) 1
     then
       (if truthy image_scope
           && negb (pystr_eqb image_scope (hd_error available_scopes))
        then (* the warning evaluates [available_scopes[0]] *)
          if scope_declared then Ok tt else Raise TypeError
        else Ok tt) ;;;
       Ok (hd_error available_scopes)
     else Ok image_scope) ;;
  let image_scope :=
    if negb (truthy image_scope) && scope_declared
       && is_training_inference available_scopes
    then hd_error available_scopes
    else image_scope in
  _validate_arg image_scope available_scopes "image scope" ;;;
  if scope_declared
  then Ok config
  else v <- getitem config image_scope ;; as_dict v.

Definition _validate_py_version_and_set_if_needed (py_version : pystr)
    (version_config : dict) (framework : string) : result pystr :=
  available_versions <-
    (if has_key version_config "repository"
     then match dict_get version_config "py_versions" with
          | Some l => if json_truthy l then as_list l else Ok []
          | None => Ok []
          end
     else Ok (keys version_config)) ;;
  if Nat.eqb (List.length available_versions) 0
  then Ok None
  else if is_none py_version && (SPARK_NAME =? framework)
  then Ok None
  else if is_none py_version
          && Nat.eqb (List.length available_versions) 1
  then Ok (hd_error available_versions)
  else
    _validate_arg py_version available_versions "Python version" ;;;
    Ok py_version.

(** Lines 93 to 100 of [retrieve]: the descent of the composite
    framework into the configuration of its base framework. *)
Definition base_framework_config (version_config : dict)
    (base_framework_version : pystr) : result dict :=
  full_base_framework_version <-
    match dict_get version_config "version_aliases" with
    | Some aliases =>
        if json_truthy aliases
        then
          aliases <- as_dict aliases ;;
          match base_framework_version with
          | Some base =>
              match dict_get aliases base with
              | Some full => full <- as_str full ;; Ok (Some full)
              | None => Ok base_framework_version
              end
          | None => Ok base_framework_version
          end
        else Raise (UnboundLocalError "full_base_framework_version")
    | None => Raise (UnboundLocalError "full_base_framework_version")
    end ;;
  _validate_arg full_base_framework_version (keys version_config)
    "base framework" ;;;
  v <- getitem version_config full_base_framework_version ;;
  as_dict v.

(** Lines 89 to 163 of [retrieve]: the resolution once the
    configuration of the framework and scope is chosen. *)
Definition retrieve_from_config (config : dict) (framework region : string)
    (version py_version instance_type container_version : pystr)
    (distribution : option (list string))
    (base_framework_version : pystr) : result string :=
  let original_version := version in
  version <- _validate_version_and_set_if_needed version config framework ;;
  versions <- getitem config (Some "versions") ;;
  versions <- as_dict versions ;;
  key <- _version_for_config version config ;;
  version_config <- getitem versions key ;;
  version_config <- as_dict version_config ;;
  version_config <-
    (if framework =? HUGGING_FACE_FRAMEWORK
     then base_framework_config version_config base_framework_version
     else Ok version_config) ;;
  py_version <-
    _validate_py_version_and_set_if_needed py_version version_config
      framework ;;
  (* [version_config.get(py_version) or version_config] *)
  version_config <-
    match py_version with
    | Some py =>
        match dict_get version_config py with
        | Some v => if json_truthy v then as_dict v else Ok version_config
        | None => Ok version_config
        end
    | None => Ok version_config
    end ;;
  registries <- getitem version_config (Some "registries") ;;
  registries <- as_dict registries ;;
  registry <- _registry_from_region region registries ;;
  hostname <- ecr_hostname region ;;
  repo <- getitem version_config (Some "repository") ;;
  repo <- as_str repo ;;
  (* [config.get("processors") or version_config.get("processors")] *)
  let available_processors :=
    match dict_get config "processors" with
    | Some l =>
        if json_truthy l then Some l
        else dict_get version_config "processors"
    | None => dict_get version_config "processors"
    end in
  (* a value that is missing or empty declares no processor *)
  available_processors <-
    match available_processors with
    | Some l => if json_truthy l then as_list l else Ok []
    | None => Ok []
    end ;;
  processor <- _processor instance_type available_processors ;;
  container_version <-
    match dict_get version_config "container_version" with
    | Some cv =>
        if json_truthy cv
        then cv <- as_dict cv ;;
             v <- getitem cv processor ;;
             v <- as_str v ;;
             Ok (Some v)
        else Ok container_version
    | None => Ok container_version
    end ;;
  tag_prefix <-
    tag_prefix_of framework version_config original_version version
      base_framework_version repo ;;
  let tag := _format_tag tag_prefix processor py_version container_version in
  let tag := auto_select_tag framework tag instance_type distribution in
  let repo := if negb (tag =? "") then repo ++ ":" ++ tag else repo in
  Ok (registry ++ ".dkr." ++ hostname ++ "/" ++ repo).

Definition retrieve (framework region : string)
    (version py_version instance_type accelerator_type image_scope
       container_version : pystr)
    (distribution : option (list string))
    (base_framework_version : pystr)
    (training_compiler_config : option unit) : result string :=
  config <-
    (if is_some training_compiler_config
     then
       if framework =? HUGGING_FACE_FRAMEWORK
       then _config_for_framework_and_scope
              (framework ++ "-training-compiler") image_scope
              accelerator_type
       else Raise (ValueError
              ("Unsupported Configuration: Training Compiler is only "
               ++ "supported with HuggingFace"))
     else _config_for_framework_and_scope framework image_scope
            accelerator_type) ;;
  retrieve_from_config config framework region version py_version
    instance_type container_version distribution base_framework_version.

End Resolver.

End ImageUris.

(* ===================================================================== *)
(** ** [sagemaker/workflow/lambda_step.py]                                 *)
(* ===================================================================== *)

Module LambdaStep.

(** The values of a request structure. *)
#[warnings="-register-all"]
Inductive value :=
| VNone
| VStr (s : string)
| VList (l : list value)
| VDict (d : list (string * value)).

Definition request := list (string * value).

Definition value_of_pystr (x : pystr) : value :=
  match x with
  | Some s => VStr s
  | None => VNone
  end.

(** [d.get(k)] *)
Fixpoint request_get (d : request) (k : string) : option value :=
  match d with
  | [] => None
  | (k', v) :: d' => if k' =? k then Some v else request_get d' k
  end.

(** [d[k] = v]: the value of a key that is there is replaced in place, a
    new key goes to the end. *)
Fixpoint request_set (d : request) (k : string) (v : value) : request :=
  match d with
  | [] => [(k, v)]
  | (k', v') :: d' =>
      if k' =? k then (k', v) :: d' else (k', v') :: request_set d' k v
  end.

(** [d.update(other)] *)
Definition request_update (d other : request) : request :=
  fold_left (fun acc kv => request_set acc (fst kv) (snd kv)) other d.

Inductive LambdaOutputTypeEnum :=
| String
| Integer
| Boolean
| Float.

(** [.value] of a member of the enumeration. *)
Definition enum_value (t : LambdaOutputTypeEnum) : string :=
  match t with
  | String => "String"
  | Integer => "Integer"
  | Boolean => "Boolean"
  | Float => "Float"
  end.

Record LambdaOutput := {
  output_name : pystr;
  output_type : LambdaOutputTypeEnum
}.

(** The constructor that [attr.s] generates: [output_name] defaults to
    [None] and [output_type] to [LambdaOutputTypeEnum.String]. *)
Definition new_LambdaOutput (output_name : option pystr)
    (output_type : option LambdaOutputTypeEnum) : LambdaOutput :=
  {| output_name := match output_name with Some n => n | None => None end;
     output_type := match output_type with Some t => t | None => String end |}.

Definition LambdaOutput_to_request (self : LambdaOutput) : value :=
  VDict [ ("OutputName", value_of_pystr (output_name self));
          ("OutputType", VStr (enum_value (output_type self))) ].

(** [sagemaker.lambda_helper.Lambda], as the step sees it: its fields,
    and what the calls [session.account_id()] and [create()] return or
    raise. *)
Record Lambda := {
  function_arn : pystr;
  function_name : pystr;
  boto_region_name : string;
  account_id : result string;
  create : result request
}.

Record LambdaStep := {
  name : string;
  lambda_func : Lambda;
  inputs : request;
  outputs : list LambdaOutput;
  (** [cache_config.config] of the [CacheConfig] of the step, if any *)
  cache_config : option request
}.

(** [LambdaStep.__init__], for the fields of the step itself. *)
Definition init (name : string) (lambda_func : Lambda)
    (inputs : option request) (outputs : option (list LambdaOutput))
    (cache_config : option request) : LambdaStep :=
  {| name := name;
     lambda_func := lambda_func;
     inputs := match inputs with Some i => i | None => [] end;
     outputs := match outputs with Some o => o | None => [] end;
     cache_config := cache_config |}.

(** [try: body except ValueError as error: handler(str(error))] *)
Definition except_ValueError {A : Type} (body : result A)
    (handler : string -> result A) : result A :=
  match body with
  | Raise (ValueError error) => handler error
  | _ => body
  end.

Definition _get_function_arn (self : LambdaStep) : result value :=
  let region := boto_region_name (lambda_func self) in
  let partition :=
    if (lower region =? "cn-north-1") || (lower region =? "cn-northwest-1")
    then "aws-cn"
    else "aws" in
  if is_none (function_arn (lambda_func self))
  then
    except_ValueError
      (account_id <- account_id (lambda_func self) ;;
       response <- create (lambda_func self) ;;
       match request_get response "FunctionArn" with
       | Some arn => Ok arn
       | None => Raise (KeyError (Some "FunctionArn"))
       end)
      (fun error =>
         if negb (contains "ResourceConflictException" error)
         then Raise (ValueError error)
         else
           (* [account_id] is bound if the call that sets it returned *)
           match account_id (lambda_func self) with
           | Ok account_id =>
               Ok (VStr ("arn:" ++ partition ++ ":lambda:" ++ region ++ ":"
                         ++ account_id ++ ":function:"
                         ++ str_of (function_name (lambda_func self))))
           | Raise _ => Raise (UnboundLocalError "account_id")
           end)
  else Ok (value_of_pystr (function_arn (lambda_func self))).

Section Step.

(** [Step.to_request], the method of the parent class. *)
Variable super_to_request : LambdaStep -> request.

Definition to_request (self : LambdaStep) : result request :=
  let request_dict := super_to_request self in
  let request_dict :=
    match cache_config self with
    | Some config => request_update request_dict config
    | None => request_dict
    end in
  function_arn <- _get_function_arn self ;;
  let request_dict := request_set request_dict "FunctionArn" function_arn in
  let request_dict :=
    request_set request_dict "OutputParameters"
      (VList (map LambdaOutput_to_request (outputs self))) in
  Ok request_dict.

End Step.

(** [LambdaOutput._expr] *)
Definition LambdaOutput__expr (name : pystr) (step_name : string) : request :=
  [ ("Get",
     VStr ("Steps." ++ step_name ++ ".OutputParameters['" ++ str_of name
           ++ "']")) ].

(** [LambdaOutput.expr] *)
Definition LambdaOutput_expr (self : LambdaOutput) (step_name : string)
    : request :=
  LambdaOutput__expr (output_name self) step_name.

(** A dict whose keys are output names, each a [str] or [None]. *)
Fixpoint names_get {A : Type} (d : list (pystr * A)) (k : pystr) : option A :=
  match d with
  | [] => None
  | (k', v) :: d' => if pystr_eqb k' k then Some v else names_get d' k
  end.

Fixpoint names_set {A : Type} (d : list (pystr * A)) (k : pystr) (v : A)
    : list (pystr * A) :=
  match d with
  | [] => [(k, v)]
  | (k', v') :: d' =>
      if pystr_eqb k' k then (k', v) :: d' else (k', v') :: names_set d' k v
  end.

(** Lines 116 to 126 of [LambdaStep.__init__]: the dict [Outputs] of the
    properties of the step.  A [Properties] object is given by the path
    that it is built with. *)
Definition property_dict (name : string) (outputs : list LambdaOutput)
    : list (pystr * string) :=
  let root_path := "Steps." ++ name in
  fold_left
    (fun property_dict output =>
       names_set property_dict (output_name output)
         (root_path ++ ".OutputParameters['" ++ str_of (output_name output)
          ++ "']"))
    outputs [].

(** [LambdaStep.arguments] *)
Definition arguments (self : LambdaStep) : request := inputs self.

End LambdaStep.

(* ===================================================================== *)
(** ** Configurations and collaborators for the examples                   *)
(* ===================================================================== *)

Module Examples.

Definition registries : json :=
  JDict [ ("us-west-2", JStr "763104351884");
          ("cn-north-1", JStr "727897471807") ].

(** A version of a framework: its registries, its repository and its
    Python versions. *)
Definition leaf (repository : string) (py_versions : list string) : json :=
  JDict [ ("registries", registries);
          ("repository", JStr repository);
          ("py_versions", JList py_versions) ].

(** A configuration in the shape of [tensorflow.json]: two scopes, two
    processors, several versions and an alias. *)
Definition tensorflow : dict :=
  [ ("training",
     JDict [ ("processors", JList ["cpu"; "gpu"]);
             ("version_aliases", JDict [("2.3", JStr "2.3.1")]);
             ("versions",
              JDict [ ("2.3.1", leaf "tensorflow-training" ["py37"]);
                      ("2.4.1", leaf "tensorflow-training" ["py37"]) ]) ]);
    ("inference",
     JDict [ ("processors", JList ["cpu"; "gpu"]);
             ("versions",
              JDict [ ("2.3.1", leaf "tensorflow-inference" []) ]) ]) ].

(** A configuration of the framework [pytorch] that declares one scope,
    one processor and one version. *)
Definition pytorch_training : dict :=
  [ ("processors", JList ["gpu"]);
    ("versions",
     JDict [ ("1.6.0", leaf "pytorch-training" ["py3"]) ]) ].

Definition pytorch : dict := [ ("training", JDict pytorch_training) ].

(** A configuration in the shape of [huggingface.json] that declares one
    version. *)
Definition huggingface_training : dict :=
  [ ("processors", JList ["gpu"]);
    ("version_aliases", JDict [("4.6", JStr "4.6.1")]);
    ("versions",
     JDict [ ("4.6.1",
              JDict [ ("version_aliases",
                       JDict [("pytorch1.7", JStr "pytorch1.7.1")]);
                      ("pytorch1.7.1",
                       leaf "huggingface-pytorch-training" ["py36"]) ]) ]) ].

Definition huggingface : dict := [ ("training", JDict huggingface_training) ].


(** A configuration in the shape of [huggingface-training-compiler.json]. *)
Definition huggingface_training_compiler : dict :=
  [ ("training",
     JDict [ ("processors", JList ["gpu"]);
             ("version_aliases", JDict [("4.11", JStr "4.11.0")]);
             ("versions",
              JDict [ ("4.11.0",
                       JDict [ ("version_aliases",
                                JDict [("pytorch1.9", JStr "pytorch1.9.0")]);
                               ("pytorch1.9.0",
                                JDict [ ("py_versions", JList ["py38"]);
                                        ("registries", registries);
                                        ("repository",
                                         JStr "huggingface-pytorch-trcomp-training");
                                        ("container_version",
                                         JDict [("gpu", JStr "cu111-ubuntu20.04")])
                                      ]) ]);
                      ("4.17.0",
                       JDict [ ("version_aliases",
                                JDict [("pytorch1.10", JStr "pytorch1.10.2")]);
                               ("pytorch1.10.2",
                                JDict [ ("py_versions", JList ["py38"]);
                                        ("registries", registries);
                                        ("repository",
                                         JStr "huggingface-pytorch-trcomp-training");
                                        ("container_version",
                                         JDict [("gpu", JStr "cu113-ubuntu20.04")])
                                      ]) ]) ]) ]) ].




Definition config_for_framework (framework : string) : result dict :=
  if framework =? "tensorflow" then Ok tensorflow
  else if framework =? "pytorch" then Ok pytorch
  else if framework =? "huggingface" then Ok huggingface
  else if framework =? "huggingface-training-compiler"
  then Ok huggingface_training_compiler
  else Raise OSError.

Definition ecr_hostname (region : string) : result string :=
  Ok ("ecr." ++ region ++ ".amazonaws.com").

Definition retrieve :=
  ImageUris.retrieve config_for_framework ecr_hostname "spark".

(** A function with the identifier [arn], whose account and creation
    would raise. *)
Definition existing_lambda (arn : string) : LambdaStep.Lambda :=
  {| LambdaStep.function_arn := Some arn;
     LambdaStep.function_name := Some "preprocess";
     LambdaStep.boto_region_name := "us-west-2";
     LambdaStep.account_id := Raise (OtherError "NoCredentialsError" "");
     LambdaStep.create := Raise (ValueError "create was called") |}.

(** A function without an identifier whose creation returns [response]. *)
Definition created_lambda (response : LambdaStep.request) : LambdaStep.Lambda :=
  {| LambdaStep.function_arn := None;
     LambdaStep.function_name := Some "preprocess";
     LambdaStep.boto_region_name := "us-west-2";
     LambdaStep.account_id := Ok "123456789012";
     LambdaStep.create := Ok response |}.

(** A step with one output and a cache configuration. *)
Definition cached_step (lambda_func : LambdaStep.Lambda)
    : LambdaStep.LambdaStep :=
  LambdaStep.init "MyLambdaStep" lambda_func None
    (Some [ LambdaStep.new_LambdaOutput (Some (Some "A")) None ])
    (Some [ ("CacheConfig",
             LambdaStep.VDict [ ("Enabled", LambdaStep.VStr "true");
                                ("ExpireAfter", LambdaStep.VStr "PT1H") ]) ]).

(** A function without an identifier whose creation raises [error]. *)
Definition failing_lambda (region : string) (error : exn) : LambdaStep.Lambda :=
  {| LambdaStep.function_arn := None;
     LambdaStep.function_name := Some "preprocess";
     LambdaStep.boto_region_name := region;
     LambdaStep.account_id := Ok "123456789012";
     LambdaStep.create := Raise error |}.

(** A step with two outputs, the second one of the default type. *)
Definition step (lambda_func : LambdaStep.Lambda) : LambdaStep.LambdaStep :=
  LambdaStep.init "MyLambdaStep" lambda_func None
    (Some [ LambdaStep.new_LambdaOutput (Some (Some "A"))
              (Some LambdaStep.Integer);
            LambdaStep.new_LambdaOutput (Some (Some "B")) None ])
    None.

(** The request of the parent class for a step without dependencies. *)
Definition super_to_request (self : LambdaStep.LambdaStep)
    : LambdaStep.request :=
  [ ("Name", LambdaStep.VStr (LambdaStep.name self));
    ("Type", LambdaStep.VStr "Lambda");
    ("Arguments", LambdaStep.VDict (LambdaStep.inputs self)) ].

End Examples.

(* ===================================================================== *)
(** ** The steps of [retrieve]                                             *)
(* ===================================================================== *)

(** The parts of [retrieve_from_config] under names of their own, so that
    a statement can speak of the variables of [retrieve] at a line.
    [retrieve_from_config_steps] below shows that [retrieve_from_config]
    is [resolve_parts] followed by [uri_from]. *)
Module Steps.

(** Line 91: [config["versions"][_version_for_config(version, config)]]. *)
Definition config_of_version (config : dict) (version : pystr)
    : result dict :=
  versions <- getitem config (Some "versions") ;;
  versions <- as_dict versions ;;
  key <- ImageUris._version_for_config version config ;;
  version_config <- getitem versions key ;;
  as_dict version_config.

(** Line 103: [version_config.get(py_version) or version_config]. *)
Definition py_version_config (version_config : dict) (py_version : pystr)
    : result dict :=
  match py_version with
  | Some py =>
      match dict_get version_config py with
      | Some v => if json_truthy v then as_dict v else Ok version_config
      | None => Ok version_config
      end
  | None => Ok version_config
  end.

(** Line 110: [config.get("processors") or
    version_config.get("processors")], as the list that [_processor]
    reads: empty for a value that is missing or empty. *)
Definition available_processors_of (config version_config : dict)
    : result (list string) :=
  match
    match dict_get config "processors" with
    | Some l =>
        if json_truthy l then Some l
        else dict_get version_config "processors"
    | None => dict_get version_config "processors"
    end
  with
  | Some l => if json_truthy l then as_list l else Ok []
  | None => Ok []
  end.

(** Lines 114 and 115: the container version of the configuration for
    the processor, if the configuration has a table of them, and the one
    of the caller if not. *)
Definition container_version_of (version_config : dict)
    (processor container_version : pystr) : result pystr :=
  match dict_get version_config "container_version" with
  | Some cv =>
      if json_truthy cv
      then cv <- as_dict cv ;;
           v <- getitem cv processor ;;
           v <- as_str v ;;
           Ok (Some v)
      else Ok container_version
  | None => Ok container_version
  end.

(** Lines 160 to 163: the URI of a registry, a host name, a repository
    and a tag. *)
Definition uri_of (registry hostname repository tag : string) : string :=
  registry ++ ".dkr." ++ hostname ++ "/" ++ repository
  ++ (if tag =? "" then "" else ":" ++ tag).

(** The variables of [retrieve] at line 117: [version], [py_version],
    [version_config], [registry], [hostname], [repo], [processor] and
    [container_version]. *)
Definition parts : Type :=
  pystr * pystr * dict * string * string * string * pystr * pystr.

Section Resolver.

Variable ecr_hostname : string -> result string.
Variable SPARK_NAME : string.

(** Lines 91 to 100: the configuration of the version, and for
    [huggingface] of its base framework version. *)
Definition version_config_of (config : dict) (framework : string)
    (version base_framework_version : pystr) : result dict :=
  version_config <- config_of_version config version ;;
  if framework =? ImageUris.HUGGING_FACE_FRAMEWORK
  then ImageUris.base_framework_config version_config base_framework_version
  else Ok version_config.

(** Lines 90 to 103: [version], [py_version] and [version_config]. *)
Definition resolve_version (config : dict) (framework : string)
    (version py_version base_framework_version : pystr)
    : result (pystr * pystr * dict) :=
  version <-
    ImageUris._validate_version_and_set_if_needed version config framework ;;
  version_config <-
    version_config_of config framework version base_framework_version ;;
  py_version <-
    ImageUris._validate_py_version_and_set_if_needed SPARK_NAME py_version
      version_config framework ;;
  version_config <- py_version_config version_config py_version ;;
  Ok (version, py_version, version_config).

(** Lines 90 to 115. *)
Definition resolve_parts (config : dict) (framework region : string)
    (version py_version instance_type container_version
       base_framework_version : pystr) : result parts :=
  r <- resolve_version config framework version py_version
         base_framework_version ;;
  let '(version, py_version, version_config) := r in
  registries <- getitem version_config (Some "registries") ;;
  registries <- as_dict registries ;;
  registry <- ImageUris._registry_from_region region registries ;;
  hostname <- ecr_hostname region ;;
  repo <- getitem version_config (Some "repository") ;;
  repo <- as_str repo ;;
  available_processors <- available_processors_of config version_config ;;
  processor <- ImageUris._processor instance_type available_processors ;;
  container_version <-
    container_version_of version_config processor container_version ;;
  Ok (version, py_version, version_config, registry, hostname, repo,
      processor, container_version).

(** Lines 117 to 163, from the variables at line 117;
    [original_version] is the version that the caller gave. *)
Definition uri_from (framework : string) (original_version instance_type : pystr)
    (distribution : option (list string)) (base_framework_version : pystr)
    (r : parts) : result string :=
  let '(version, py_version, version_config, registry, hostname, repo,
        processor, container_version) := r in
  tag_prefix <-
    ImageUris.tag_prefix_of framework version_config original_version version
      base_framework_version repo ;;
  let tag :=
    ImageUris._format_tag tag_prefix processor py_version container_version in
  let tag := ImageUris.auto_select_tag framework tag instance_type distribution in
  Ok (uri_of registry hostname repo tag).

End Resolver.

End Steps.

(* ===================================================================== *)
(** ** The wording of the specification                                    *)
(* ===================================================================== *)

Module Spec.

(** The processor of a family: the family itself if it is declared, else
    [inf] for a family that begins with [inf], else [gpu] for a family
    whose first character is [g] or [p], else [cpu]. *)
Definition family_processor (family : string)
    (available_processors : list string) : string :=
  if str_in family available_processors then family
  else if startswith family "inf" then "inf"
  else
    match family with
    | String c _ => if Ascii.eqb c "g" || Ascii.eqb c "p" then "gpu" else "cpu"
    | EmptyString => "cpu"
    end.

(** The processor is returned if it is declared, and refused with the
    list of the declared ones if it is not. *)
Definition checked (processor : string) (available_processors : list string)
    : result pystr :=
  if str_in processor available_processors
  then Ok (Some processor)
  else Raise (ValueError
                (ImageUris.unsupported_message "processor" (Some processor)
                   available_processors)).


(** The partition of a region: [aws-cn] for the two regions of China,
    [aws] for every other region. *)
Definition partition_of (region : string) : string :=
  if (lower region =? "cn-north-1") || (lower region =? "cn-northwest-1")
  then "aws-cn"
  else "aws".

(** The identifier that is put together for a function that exists. *)
Definition synthesized_arn (region account function_name : string) : string :=
  "arn:" ++ partition_of region ++ ":lambda:" ++ region ++ ":" ++ account
  ++ ":function:" ++ function_name.

(** The aliases that a configuration declares for its versions: those of
    its table [version_aliases], none if it has no such table. *)
Definition declared_aliases (config aliases : dict) : Prop :=
  dict_get config "version_aliases" = Some (JDict aliases)
  \/ (dict_get config "version_aliases" = None /\ aliases = []).

(** Every alias stands for a declared version. *)
Definition aliases_point_to (aliases versions : dict) : Prop :=
  forall alias target,
    dict_get aliases alias = Some target ->
    exists version, target = JStr version /\ In version (keys versions).

(** The Python versions that the configuration of a version declares:
    its list [py_versions] if it names a repository, its keys if not. *)
Definition declared_py_versions (version_config : dict)
    (declared : list string) : Prop :=
  if has_key version_config "repository"
  then dict_get version_config "py_versions" = Some (JList declared)
       \/ (dict_get version_config "py_versions" = None /\ declared = [])
  else declared = keys version_config.

(** An accelerator type that [_validate_accelerator_type] accepts. *)
Definition valid_accelerator (accelerator_type : string) : Prop :=
  startswith accelerator_type "ml.eia" = true
  \/ accelerator_type = "local_sagemaker_notebook".

(** The name of the configuration file that [retrieve] loads. *)
Definition config_name (framework : string)
    (training_compiler_config : option unit) : string :=
  if is_some training_compiler_config
  then framework ++ "-training-compiler"
  else framework.




(** The instance type is of the family [p4d]. *)
Definition family_is_p4d (instance_type : pystr) : Prop :=
  exists it, instance_type = Some it /\ instance_family it = Some "p4d".

(** The distribution names [smdistributed]. *)
Definition names_smdistributed (distribution : option (list string)) : Prop :=
  exists d, distribution = Some d /\ In "smdistributed" d.

(** The resolution of the processor as the specification words it: the
    two literal forms [local] and [local_gpu], else the pattern and the
    processor of the family, else a failure. *)
Definition processor_as_specified (instance_type : string)
    (available_processors : list string) : result pystr :=
  if instance_type =? "local" then Ok (Some "cpu")
  else if instance_type =? "local_gpu" then Ok (Some "gpu")
  else
    match instance_family instance_type with
    | Some family => Ok (Some (family_processor family available_processors))
    | None =>
        Raise (ValueError
                 (ImageUris.invalid_instance_type_message instance_type))
    end.

(** The pattern of a resolved URI: [^], one or more characters that are
    not [.], the text [.dkr.], one or more characters that are not [/],
    a [/], one or more characters that are not [:], an optional group of
    [:] and one or more characters that are not [:], and [$]. *)
Definition not_char (c : ascii) : ascii -> bool :=
  fun a => negb (Ascii.eqb a c).

Definition uri_pattern : Re.regex :=
  Re.Seq Re.Bol
 (Re.Seq (Re.Plus (Re.Class (not_char ".")))
 (Re.Seq (Re.Lit ".dkr.")
 (Re.Seq (Re.Plus (Re.Class (not_char "/")))
 (Re.Seq (Re.Chr "/")
 (Re.Seq (Re.Plus (Re.Class (not_char ":")))
 (Re.Seq (Re.Opt (Re.Group 1
            (Re.Seq (Re.Chr ":") (Re.Plus (Re.Class (not_char ":"))))))
         Re.Eol)))))).

Definition is_uri (s : string) : bool :=
  is_some (Re.re_match uri_pattern s).

End Spec.

(* ===================================================================== *)
(** * Properties                                                           *)
(* ===================================================================== *)

(** ** The matcher *)

Section MatcherFacts.

Import Re.

Lemma exec_Lit w : forall pos s c k,
  exec (Lit w) pos (w ++ s) c k = k (pos + String.length w)%nat s c.
Proof.
  induction w as [|a w IH]; intros pos s c k; simpl.
  - now rewrite Nat.add_0_r.
  - rewrite Ascii.eqb_refl, IH. f_equal. lia.
Qed.


(** A greedy star of a class takes the whole run of characters of the
    class when the rest of the pattern accepts what follows the run. *)
Lemma star_class_greedy p k res : forall run rest fuel pos c,
  all_chars p run = true ->
  stops p rest = true ->
  (String.length run <= fuel)%nat ->
  k (pos + String.length run)%nat rest c = Some res ->
  star_loop (exec (Class p)) k fuel pos (run ++ rest) c = Some res.
Proof.
  induction run as [|a run IH]; intros rest fuel pos c Hall Hstop Hfuel Hk;
    simpl in *.
  - rewrite Nat.add_0_r in Hk.
    destruct fuel as [|fuel]; simpl; [exact Hk|].
    destruct rest as [|b rest]; simpl in *; [now rewrite Hk|].
    apply negb_true_iff in Hstop. now rewrite Hstop, Hk.
  - apply andb_true_iff in Hall as [Ha Hall].
    destruct fuel as [|fuel]; [lia|]. simpl. rewrite Ha.
    replace (pos <? S pos)%nat with true by (symmetry; apply Nat.ltb_lt; lia).
    rewrite (IH rest fuel (S pos) c); auto; [lia|].
    rewrite <- Hk. f_equal. lia.
Qed.

(** The equations of [exec], to run a pattern one step at a time. *)
Lemma exec_Seq r1 r2 pos s c k :
  exec (Seq r1 r2) pos s c k
  = exec r1 pos s c (fun pos' s' c' => exec r2 pos' s' c' k).
Proof. reflexivity. Qed.

Lemma exec_Alt r1 r2 pos s c k :
  exec (Alt r1 r2) pos s c k
  = match exec r1 pos s c k with
    | Some res => Some res
    | None => exec r2 pos s c k
    end.
Proof. reflexivity. Qed.

Lemma exec_Group n r pos s c k :
  exec (Group n r) pos s c k
  = exec r pos s c
      (fun pos' s' c' => k pos' s' ((n, substring 0 (pos' - pos) s) :: c')).
Proof. reflexivity. Qed.

Lemma exec_Bol s c k : exec Bol 0 s c k = k 0%nat s c.
Proof. reflexivity. Qed.

Lemma exec_Eol pos s c k :
  at_eol s = true -> exec Eol pos s c k = k pos s c.
Proof. intros H. simpl. now rewrite H. Qed.

Lemma exec_Empty pos s c k : exec Empty pos s c k = k pos s c.
Proof. reflexivity. Qed.

Lemma exec_Chr a pos s c k :
  exec (Chr a) pos (String a s) c k = k (S pos) s c.
Proof. simpl. now rewrite Ascii.eqb_refl. Qed.

Lemma exec_Chr_fail a pos s c k :
  stops (Ascii.eqb a) s = true -> exec (Chr a) pos s c k = None.
Proof.
  destruct s as [|b s]; simpl; [reflexivity|].
  intros H. apply negb_true_iff in H. now rewrite H.
Qed.

Lemma length_append s1 s2 :
  String.length (s1 ++ s2) = (String.length s1 + String.length s2)%nat.
Proof.
  induction s1 as [|a s1 IH]; simpl; [reflexivity | now rewrite IH].
Qed.

(** A greedy star of a class runs to the end of the characters of the
    class, [run], when the rest of the pattern accepts what follows. *)
Lemma exec_Star_Class p s run rest pos c k res :
  s = run ++ rest ->
  all_chars p run = true ->
  stops p rest = true ->
  k (pos + String.length run)%nat rest c = Some res ->
  exec (Star (Class p)) pos s c k = Some res.
Proof.
  intros -> Hall Hstop Hk.
  change (star_loop (exec (Class p)) k (S (String.length (run ++ rest))) pos
            (run ++ rest) c = Some res).
  apply star_class_greedy; auto. rewrite length_append. lia.
Qed.

Lemma exec_Plus_Class p s a run rest pos c k res :
  s = String a run ++ rest ->
  p a = true ->
  all_chars p run = true ->
  stops p rest = true ->
  k (pos + S (String.length run))%nat rest c = Some res ->
  exec (Plus (Class p)) pos s c k = Some res.
Proof.
  intros -> Ha Hall Hstop Hk. unfold Plus. rewrite exec_Seq.
  simpl append. cbn [exec]. rewrite Ha.
  apply exec_Star_Class with (run := run) (rest := rest); auto.
  rewrite <- Hk. f_equal. lia.
Qed.

Lemma star_loop_sound r
  (IH : forall pos s c k res, exec r pos s c k = Some res ->
        exists pos' s' c',
          matches r (pos, s, c) (pos', s', c') /\ k pos' s' c' = Some res) :
  forall fuel pos s c k res,
    star_loop (exec r) k fuel pos s c = Some res ->
    exists pos' s' c',
      matches (Star r) (pos, s, c) (pos', s', c') /\ k pos' s' c' = Some res.
Proof.
  induction fuel as [|fuel IHf]; intros pos s c k res H; simpl in H.
  - exists pos, s, c. split; [constructor | exact H].
  - destruct (exec r pos s c _) as [res'|] eqn:E.
    + injection H as ->.
      apply IH in E as (pos1 & s1 & c1 & Hm & Hk).
      destruct (pos <? pos1)%nat eqn:Hlt; [|discriminate].
      apply IHf in Hk as (pos2 & s2 & c2 & Hm2 & Hk2).
      exists pos2, s2, c2. split; [|exact Hk2].
      eapply M_Star_more; eauto. simpl. now apply Nat.ltb_lt.
    + exists pos, s, c. split; [constructor | exact H].
Qed.

(** What the matcher finds is a match: a success of [exec] is a success
    of the continuation in a state that the pattern leads to. *)
Lemma exec_sound r : forall pos s c k res,
  exec r pos s c k = Some res ->
  exists pos' s' c',
    matches r (pos, s, c) (pos', s', c') /\ k pos' s' c' = Some res.
Proof.
  induction r as [|p|r1 IH1 r2 IH2|r1 IH1 r2 IH2|r IH|n r IH| |];
    intros pos s c k res H; simpl in H.
  - exists pos, s, c. split; [constructor|exact H].
  - destruct s as [|a s]; [discriminate|].
    destruct (p a) eqn:Hp; [|discriminate].
    exists (S pos), s, c. split; [now constructor|exact H].
  - apply IH1 in H as (pos1 & s1 & c1 & Hm1 & H).
    apply IH2 in H as (pos2 & s2 & c2 & Hm2 & H).
    exists pos2, s2, c2. split; [econstructor; eauto|exact H].
  - destruct (exec r1 pos s c k) as [res'|] eqn:E.
    + injection H as ->. apply IH1 in E as (pos1 & s1 & c1 & Hm1 & E).
      exists pos1, s1, c1. split; [now apply M_Alt_l|exact E].
    + apply IH2 in H as (pos1 & s1 & c1 & Hm1 & E').
      exists pos1, s1, c1. split; [now apply M_Alt_r|exact E'].
  - exact (@star_loop_sound r IH (S (String.length s)) pos s c k res H).
  - apply IH in H as (pos1 & s1 & c1 & Hm1 & H).
    exists pos1, s1, ((n, substring 0 (pos1 - pos) s) :: c1).
    split; [now constructor|exact H].
  - destruct (pos =? 0)%nat eqn:E; [|discriminate].
    apply Nat.eqb_eq in E as ->.
    exists 0%nat, s, c. split; [constructor|exact H].
  - destruct (at_eol s) eqn:E; [|discriminate].
    exists pos, s, c. split; [now constructor|exact H].
Qed.

Lemma matches_pos_le r st st' :
  matches r st st' -> (fst (fst st) <= fst (fst st'))%nat.
Proof.
  induction 1; simpl in *; lia.
Qed.

Lemma matches_groupless r st st' :
  matches r st st' -> groupless r = true -> snd st' = snd st.
Proof.
  induction 1; simpl; intros G; try reflexivity;
    try (apply andb_true_iff in G as [G1 G2]); try discriminate.
  - now rewrite IHmatches2, IHmatches1.
  - auto.
  - auto.
  - rewrite IHmatches2, IHmatches1; auto.
Qed.

(** A group of one or more characters of a class captures at least one
    character, which is of the class. *)
Lemma matches_Plus_Class p n pos s c pos' s' c' :
  matches (Group n (Plus (Class p))) (pos, s, c) (pos', s', c') ->
  exists a f, p a = true /\ c' = (n, String a f) :: c.
Proof.
  intros H.
  inversion H as [| | | | | | |n0 r0 pos0 s0 c0 pos1 s1 c1 HP| |]; subst.
  unfold Plus in HP.
  inversion HP as [| |r1 r2 st1 st2 st3 HC HS| | | | | | |]; subst.
  inversion HC as [|p0 a pos0 s0 c0 Hp| | | | | | | |]; subst.
  assert (Hle := matches_pos_le HS). simpl in Hle.
  assert (Hc := matches_groupless HS eq_refl). simpl in Hc. subst c1.
  exists a. destruct (pos' - pos)%nat as [|m] eqn:E; [lia|].
  simpl. eauto.
Qed.

(** The family that the pattern of the instance types captures is not
    empty: it starts with a lower-case letter or a digit. *)
Lemma instance_family_nonempty it family :
  instance_family it = Some family ->
  exists a f, family = String a f /\ a_z a || digit a = true.
Proof.
  unfold instance_family, re_match.
  destruct (exec instance_type_pattern 0 it [] _) as [caps|] eqn:E;
    [|discriminate].
  intros G. apply exec_sound in E as (pos' & s' & c' & Hm & Hk).
  injection Hk as <-.
  unfold instance_type_pattern in Hm.
  inversion Hm as [| |? ? ? st1 ? HBol H1| | | | | | |]; subst.
  inversion HBol; subst.
  inversion H1 as [| |? ? ? st2 ? HLit H2| | | | | | |]; subst.
  inversion H2 as [| |? ? ? st3 ? HSep H3| | | | | | |]; subst.
  inversion H3 as [| |? ? ? st4 ? HGrp H4| | | | | | |]; subst.
  assert (C2 := matches_groupless HLit eq_refl).
  assert (C3 := matches_groupless HSep eq_refl).
  assert (C4 := matches_groupless H4 eq_refl).
  destruct st2 as [[p2 s2] c2], st3 as [[p3 s3] c3], st4 as [[p4 s4] c4].
  simpl in *. subst.
  apply matches_Plus_Class in HGrp as (a & f & Hp & ->).
  simpl in G. injection G as <-. eauto.
Qed.

End MatcherFacts.

(* ===================================================================== *)
(** ** The processor of an instance type                                   *)
(* ===================================================================== *)

Section Processor.

Import ImageUris Spec.

Lemma validate_then_return processor available_processors :
  (_validate_arg (Some processor) available_processors "processor" ;;;
   Ok (Some processor))
  = checked processor available_processors.
Proof.
  unfold _validate_arg, checked, py_in.
  now destruct (str_in processor available_processors).
Qed.

Lemma startswith_nonempty s p :
  p <> "" -> startswith s p = true -> s <> "".
Proof.
  intros Hp H ->. destruct p; [now apply Hp | discriminate].
Qed.

(** With a declared processor and an instance type that is not empty,
    [_processor] goes by the instance type. *)
Lemma _processor_of_instance_type a it first others :
  _processor (Some (String a it)) (first :: others) =
    processor <-
      (if startswith (String a it) "local"
       then Ok (if String a it =? "local" then "cpu" else "gpu")
       else
         match instance_family (String a it) with
         | Some family =>
             if str_in family (first :: others)
             then Ok family
             else if startswith family "inf"
             then Ok "inf"
             else
               match family with
               | String c _ =>
                   if Ascii.eqb c "g" || Ascii.eqb c "p"
                   then Ok "gpu"
                   else Ok "cpu"
               | EmptyString => Raise IndexError
               end
         | None =>
             Raise (ValueError (invalid_instance_type_message (String a it)))
         end) ;;
    _validate_arg (Some processor) (first :: others) "processor" ;;;
    Ok (Some processor).
Proof.
  unfold _processor.
  cbn [List.length Nat.eqb truthy String.eqb negb andb].
  now rewrite andb_false_r.
Qed.

(** C10. Every instance type that begins with [local] resolves without
    the pattern of the instance types being consulted: the string
    [local] itself to [cpu], every other one ([local_gpu], but also
    [localhost] or [local_anything]) to [gpu]; the processor is returned
    if the declared set holds it and refused if not. *)
Theorem local_prefix_resolves_without_pattern
    (instance_type : string) (available_processors : list string) :
  available_processors <> [] ->
  startswith instance_type "local" = true ->
  _processor (Some instance_type) available_processors =
    checked (if instance_type =? "local" then "cpu" else "gpu")
      available_processors.
Proof.
  intros Hprocs Hlocal.
  destruct available_processors as [|first others]; [now elim Hprocs|].
  destruct instance_type as [|a it]; [discriminate|].
  rewrite _processor_of_instance_type, Hlocal. cbn [bind].
  apply validate_then_return.
Qed.

Lemma local_prefix_resolves_without_pattern_witness :
  instance_family "localhost" = None
  /\ _processor (Some "localhost") ["cpu"; "gpu"] = Ok (Some "gpu")
  /\ _processor (Some "local") ["cpu"; "gpu"] = Ok (Some "cpu").
Proof.
  split; [reflexivity|]. split.
  - rewrite (@local_prefix_resolves_without_pattern "localhost" ["cpu"; "gpu"]);
      [reflexivity | discriminate | reflexivity].
  - rewrite (@local_prefix_resolves_without_pattern "local" ["cpu"; "gpu"]);
      [reflexivity | discriminate | reflexivity].
Defined.

(** C1, as amended. With a declared set that is not empty and an
    instance type that is given, the processor is: for an instance type
    that begins with [local], [cpu] if it is [local] and [gpu] if it is
    any other such string; else, for an instance type that the pattern
    [ml[._]<family>[.<size>]] matches, the family itself if it is
    declared, else [inf] for a family that begins with [inf], else [gpu]
    for a family that begins with [g] or [p], else [cpu]; else the
    resolution fails with a [ValueError].  The processor so found is
    returned if the declared set holds it; if not, the resolution fails
    with a [ValueError] too.  So [ml.p3.2xlarge] resolves to [gpu],
    [ml.c5.xlarge] to [cpu] and [ml.inf1.xlarge] to [inf] where these are
    declared and the families are not, and [p3.2xlarge] fails. *)
Theorem processor_resolution :
  (forall (instance_type : string) (available_processors : list string),
      available_processors <> [] ->
      instance_type <> "" ->
      _processor (Some instance_type) available_processors =
        if startswith instance_type "local"
        then checked (if instance_type =? "local" then "cpu" else "gpu")
               available_processors
        else
          match instance_family instance_type with
          | Some family =>
              checked (family_processor family available_processors)
                available_processors
          | None =>
              Raise (ValueError (invalid_instance_type_message instance_type))
          end)
  /\ (forall ps, str_in "gpu" ps = true -> str_in "p3" ps = false ->
        _processor (Some "ml.p3.2xlarge") ps = Ok (Some "gpu"))
  /\ (forall ps, str_in "cpu" ps = true -> str_in "c5" ps = false ->
        _processor (Some "ml.c5.xlarge") ps = Ok (Some "cpu"))
  /\ (forall ps, str_in "inf" ps = true -> str_in "inf1" ps = false ->
        _processor (Some "ml.inf1.xlarge") ps = Ok (Some "inf"))
  /\ (forall ps, str_in "cpu" ps = true ->
        _processor (Some "local") ps = Ok (Some "cpu"))
  /\ (forall ps, str_in "gpu" ps = true ->
        _processor (Some "local_gpu") ps = Ok (Some "gpu"))
  /\ (forall ps, ps <> [] ->
        _processor (Some "p3.2xlarge") ps =
          Raise (ValueError (invalid_instance_type_message "p3.2xlarge"))).
Proof.
  assert (General : forall it ps, ps <> [] -> it <> "" ->
    _processor (Some it) ps =
      if startswith it "local"
      then checked (if it =? "local" then "cpu" else "gpu") ps
      else match instance_family it with
           | Some family => checked (family_processor family ps) ps
           | None => Raise (ValueError (invalid_instance_type_message it))
           end).
  { intros it ps Hps Hit.
    destruct ps as [|first others]; [now elim Hps|].
    destruct it as [|a it]; [now elim Hit|].
    rewrite _processor_of_instance_type.
    destruct (startswith (String a it) "local");
      [cbn [bind]; apply validate_then_return|].
    destruct (instance_family (String a it)) as [family|] eqn:F;
      [|reflexivity].
    apply instance_family_nonempty in F as (c & f & -> & _).
    unfold family_processor.
    destruct (str_in (String c f) (first :: others));
      [cbn [bind]; apply validate_then_return|].
    destruct (startswith (String c f) "inf");
      [cbn [bind]; apply validate_then_return|].
    destruct (Ascii.eqb c "g" || Ascii.eqb c "p");
      cbn [bind]; apply validate_then_return. }
  assert (NE : forall ps a, str_in a ps = true -> ps <> []).
  { intros ps a H ->. discriminate. }
  split; [exact General|].
  repeat split; intros ps H; try intros H'.
  - rewrite General; [|now apply (@NE ps "gpu")|discriminate].
    change (startswith "ml.p3.2xlarge" "local") with false.
    replace (instance_family "ml.p3.2xlarge") with (Some "p3") by reflexivity.
    cbv iota. unfold family_processor. rewrite H'.
    change (checked "gpu" ps = Ok (Some "gpu")). unfold checked.
    now rewrite H.
  - rewrite General; [|now apply (@NE ps "cpu")|discriminate].
    change (startswith "ml.c5.xlarge" "local") with false.
    replace (instance_family "ml.c5.xlarge") with (Some "c5") by reflexivity.
    cbv iota. unfold family_processor. rewrite H'.
    change (checked "cpu" ps = Ok (Some "cpu")). unfold checked.
    now rewrite H.
  - rewrite General; [|now apply (@NE ps "inf")|discriminate].
    change (startswith "ml.inf1.xlarge" "local") with false.
    replace (instance_family "ml.inf1.xlarge") with (Some "inf1")
      by reflexivity.
    cbv iota. unfold family_processor. rewrite H'.
    change (checked "inf" ps = Ok (Some "inf")). unfold checked.
    now rewrite H.
  - rewrite General; [|now apply (@NE ps "cpu")|discriminate].
    change (checked "cpu" ps = Ok (Some "cpu")). unfold checked.
    now rewrite H.
  - rewrite General; [|now apply (@NE ps "gpu")|discriminate].
    change (checked "gpu" ps = Ok (Some "gpu")). unfold checked.
    now rewrite H.
  - rewrite General; [reflexivity|assumption|discriminate].
Qed.

Lemma processor_resolution_witness :
  _processor (Some "ml.g4dn.xlarge") ["cpu"; "gpu"] = Ok (Some "gpu")
  /\ _processor (Some "ml.p3.2xlarge") ["cpu"; "gpu"; "inf"] = Ok (Some "gpu").
Proof.
  split.
  - rewrite (proj1 processor_resolution "ml.g4dn.xlarge" ["cpu"; "gpu"]);
      [reflexivity | discriminate | discriminate].
  - apply (proj1 (proj2 processor_resolution)); reflexivity.
Defined.

(** C1, as the specification states it, fails: [localhost] matches
    neither a literal form nor the pattern and resolves to [gpu], and
    [ml.p3.2xlarge] does not resolve to [gpu] where [gpu] is not
    declared. *)
Lemma processor_as_specified_fails :
  (_processor (Some "localhost") ["cpu"; "gpu"] = Ok (Some "gpu")
   /\ processor_as_specified "localhost" ["cpu"; "gpu"]
      = Raise (ValueError (invalid_instance_type_message "localhost")))
  /\ (_processor (Some "ml.p3.2xlarge") ["cpu"]
      = Raise (ValueError
                 (unsupported_message "processor" (Some "gpu") ["cpu"]))
      /\ processor_as_specified "ml.p3.2xlarge" ["cpu"] = Ok (Some "gpu")).
Proof.
  repeat split; reflexivity.
Qed.

End Processor.

(* ===================================================================== *)
(** ** The correction for auto-selected container versions                 *)
(* ===================================================================== *)

Section AutoSelect.

Import ImageUris Spec.

Lemma str_in_In s l : str_in s l = true <-> In s l.
Proof.
  unfold str_in. rewrite existsb_exists. split.
  - intros (x & Hx & E). apply String.eqb_eq in E. now subst.
  - intros H. exists s. split; [exact H | apply String.eqb_refl].
Qed.

Lemma should_auto_select_iff instance_type distribution :
  _should_auto_select_container_version instance_type distribution = true
  <-> family_is_p4d instance_type \/ names_smdistributed distribution.
Proof.
  unfold _should_auto_select_container_version, family_is_p4d,
    names_smdistributed.
  rewrite orb_true_iff. split.
  - intros [H|H]; [left|right].
    + destruct instance_type as [it|]; [|discriminate].
      destruct (truthy (Some it)); cbv iota in H; [|discriminate].
      destruct (instance_family it) as [family|] eqn:F; [|discriminate].
      apply String.eqb_eq in H. subst. now exists it.
    + destruct distribution as [d|]; [|discriminate].
      destruct (negb (Nat.eqb (List.length d) 0)); cbv iota in H;
        [|discriminate].
      exists d. split; [reflexivity | now apply str_in_In].
  - intros [(it & -> & F)|(d & -> & I)]; [left|right].
    + rewrite F. destruct it as [|a it]; [discriminate F | reflexivity].
    + destruct d as [|x d]; [now elim I|]. cbn [List.length Nat.eqb negb].
      now apply str_in_In.
Qed.

(** C7. The correction changes the tag only when the instance type is of
    the family [p4d] or the distribution names [smdistributed], and then
    only when the framework and the tag, joined by [-], are a key of the
    legacy table: the suffix of the table is then appended to the tag.
    For every other framework, tag, instance type and distribution the
    tag is left as it is. *)
Theorem auto_select_only_legacy_pairs
    (framework tag : string) (instance_type : pystr)
    (distribution : option (list string)) :
  (auto_select_tag framework tag instance_type distribution <> tag ->
     (family_is_p4d instance_type \/ names_smdistributed distribution)
     /\ exists suffix,
          lookup container_versions (framework ++ "-" ++ tag) = Some suffix
          /\ auto_select_tag framework tag instance_type distribution
             = tag ++ "-" ++ suffix)
  /\ (forall suffix,
        family_is_p4d instance_type \/ names_smdistributed distribution ->
        lookup container_versions (framework ++ "-" ++ tag) = Some suffix ->
        auto_select_tag framework tag instance_type distribution
        = tag ++ "-" ++ suffix)
  /\ (lookup container_versions (framework ++ "-" ++ tag) = None ->
        auto_select_tag framework tag instance_type distribution = tag)
  /\ (~ (family_is_p4d instance_type \/ names_smdistributed distribution) ->
        auto_select_tag framework tag instance_type distribution = tag).
Proof.
  unfold auto_select_tag.
  change (String.concat "-" [framework; tag]) with (framework ++ "-" ++ tag).
  destruct (_should_auto_select_container_version instance_type distribution)
    eqn:A.
  - apply should_auto_select_iff in A.
    destruct (lookup container_versions (framework ++ "-" ++ tag))
      as [suffix|] eqn:L.
    + change (String.concat "-" [tag; suffix]) with (tag ++ "-" ++ suffix).
      split; [intros _; split; [exact A | now exists suffix]|].
      split; [intros suffix' _ E; now injection E as <-|].
      split; [discriminate | intros N; now elim N].
    + split; [intros H; now elim H|].
      split; [discriminate|].
      split; [reflexivity | intros N; now elim N].
  - assert (N : ~ (family_is_p4d instance_type
                   \/ names_smdistributed distribution)).
    { intros H. apply should_auto_select_iff in H. congruence. }
    split; [intros H; now elim H|].
    split; [intros suffix H; now elim N|].
    split; reflexivity.
Qed.

Lemma auto_select_only_legacy_pairs_witness :
  auto_select_tag "tensorflow" "2.3.1-gpu-py37" (Some "ml.p4d.24xlarge") None
  = "2.3.1-gpu-py37-cu110-ubuntu18.04"
  /\ auto_select_tag "tensorflow" "2.4.1-gpu-py37" (Some "ml.p4d.24xlarge")
       (Some ["smdistributed"])
     = "2.4.1-gpu-py37".
Proof.
  split.
  - apply (proj1 (proj2 (auto_select_only_legacy_pairs "tensorflow"
             "2.3.1-gpu-py37" (Some "ml.p4d.24xlarge") None))).
    + left. exists "ml.p4d.24xlarge". split; reflexivity.
    + reflexivity.
  - apply (proj1 (proj2 (proj2 (auto_select_only_legacy_pairs "tensorflow"
             "2.4.1-gpu-py37" (Some "ml.p4d.24xlarge")
             (Some ["smdistributed"]))))).
    reflexivity.
Defined.

End AutoSelect.

(* ===================================================================== *)
(** ** The errors for unsupported values                                   *)
(* ===================================================================== *)


Section UnsupportedValues.

Import ImageUris Spec.

Variable SPARK_NAME : string.

Lemma _validate_arg_raises arg options arg_name e :
  _validate_arg arg options arg_name = Raise e ->
  py_in arg options = false
  /\ e = ValueError (unsupported_message arg_name arg options).
Proof.
  unfold _validate_arg. destruct (py_in arg options); cbn [negb].
  - discriminate.
  - intros H. injection H as <-. now split.
Qed.



End UnsupportedValues.



(* ===================================================================== *)
(** ** The compiler configuration                                          *)
(* ===================================================================== *)

Section CompilerConfig.

Import ImageUris.

Variable config_for_framework : string -> result dict.
Variable ecr_hostname : string -> result string.
Variable SPARK_NAME : string.

Let retrieve := retrieve config_for_framework ecr_hostname SPARK_NAME.
Let retrieve_from_config := retrieve_from_config ecr_hostname SPARK_NAME.
Let _config_for_framework_and_scope :=
  _config_for_framework_and_scope config_for_framework.

(** C5. With a compiler configuration, the resolution of a framework
    other than [huggingface] fails with a [ValueError], before any
    configuration is loaded; the resolution of [huggingface] goes on with
    the configuration of [huggingface-training-compiler]. *)
Theorem compiler_config_only_with_huggingface
    (framework region : string)
    (version py_version instance_type accelerator_type image_scope
       container_version : pystr)
    (distribution : option (list string)) (base_framework_version : pystr)
    (training_compiler_config : unit) :
  (framework <> "huggingface" ->
     retrieve framework region version py_version instance_type
       accelerator_type image_scope container_version distribution
       base_framework_version (Some training_compiler_config)
     = Raise (ValueError
         "Unsupported Configuration: Training Compiler is only supported with HuggingFace"))
  /\ (framework = "huggingface" ->
        retrieve framework region version py_version instance_type
          accelerator_type image_scope container_version distribution
          base_framework_version (Some training_compiler_config)
        = (config <- _config_for_framework_and_scope
                       "huggingface-training-compiler" image_scope
                       accelerator_type ;;
           retrieve_from_config config "huggingface" region version
             py_version instance_type container_version distribution
             base_framework_version)).
Proof.
  unfold retrieve, ImageUris.retrieve, HUGGING_FACE_FRAMEWORK.
  cbn [is_some]. split.
  - intros H. apply String.eqb_neq in H. rewrite H. reflexivity.
  - intros ->. reflexivity.
Qed.

End CompilerConfig.

Lemma compiler_config_only_with_huggingface_witness :
  Examples.retrieve "tensorflow" "us-west-2" (Some "2.3.1") (Some "py37")
    (Some "ml.p3.2xlarge") None (Some "training") None None None (Some tt)
  = Raise (ValueError
      "Unsupported Configuration: Training Compiler is only supported with HuggingFace")
  /\ Examples.retrieve "huggingface" "us-west-2" (Some "4.11") None
       (Some "ml.p3.2xlarge") None (Some "training") None None
       (Some "pytorch1.9") (Some tt)
     = Ok ("763104351884.dkr.ecr.us-west-2.amazonaws.com/"
           ++ "huggingface-pytorch-trcomp-training:"
           ++ "1.9-transformers4.11-gpu-py38-cu111-ubuntu20.04").
Proof.
  unfold Examples.retrieve. split.
  - apply (proj1 (compiler_config_only_with_huggingface
             Examples.config_for_framework Examples.ecr_hostname "spark"
             "tensorflow" "us-west-2" (Some "2.3.1") (Some "py37")
             (Some "ml.p3.2xlarge") None (Some "training") None None None tt)).
    discriminate.
  - rewrite (proj2 (compiler_config_only_with_huggingface
             Examples.config_for_framework Examples.ecr_hostname "spark"
             "huggingface" "us-west-2" (Some "4.11") None
             (Some "ml.p3.2xlarge") None (Some "training") None None
             (Some "pytorch1.9") tt) eq_refl).
    reflexivity.
Defined.

(* ===================================================================== *)
(** ** The prefix of the tag of the composite framework                    *)
(* ===================================================================== *)

Section TagPrefix.

Import ImageUris.

Lemma substring_full s : substring 0 (String.length s) s = s.
Proof.
  induction s as [|a s IH]; simpl; [reflexivity | now rewrite IH].
Qed.

Lemma substring_prefix w s : substring 0 (String.length w) (w ++ s) = w.
Proof.
  induction w as [|a w IH]; simpl; [now destruct s | now rewrite IH].
Qed.

Lemma append_empty_r s : s ++ "" = s.
Proof.
  induction s as [|a s IH]; simpl; [reflexivity | now rewrite IH].
Qed.



End TagPrefix.

(* ===================================================================== *)
(** ** The result of a resolution                                          *)
(* ===================================================================== *)

Section Resolution.

Import ImageUris Spec Steps.

Variable config_for_framework : string -> result dict.
Variable ecr_hostname : string -> result string.
Variable SPARK_NAME : string.

Lemma bind_Ok {A B : Type} (m : result A) (f : A -> result B) b :
  bind m f = Ok b -> exists a, m = Ok a /\ f a = Ok b.
Proof.
  destruct m as [a|e]; simpl; [|discriminate]. intros H. now exists a.
Qed.

Lemma bind_ext {A B : Type} (m : result A) (f g : A -> result B) :
  (forall a, f a = g a) -> bind m f = bind m g.
Proof.
  intros H. destruct m; simpl; [apply H | reflexivity].
Qed.

Lemma bind_assoc {A B C : Type} (m : result A) (f : A -> result B)
    (g : B -> result C) :
  bind (bind m f) g = bind m (fun a => bind (f a) g).
Proof.
  now destruct m.
Qed.

Lemma getitem_Ok d k v :
  getitem d (Some k) = Ok v -> dict_get d k = Some v.
Proof.
  unfold getitem. destruct (dict_get d k); [|discriminate].
  now intros [= ->].
Qed.

Lemma as_dict_Ok v d : as_dict v = Ok d -> v = JDict d.
Proof.
  destruct v; try discriminate. now intros [= ->].
Qed.

Lemma as_str_Ok v s : as_str v = Ok s -> v = JStr s.
Proof.
  destruct v; try discriminate. now intros [= ->].
Qed.

(** The registry of a region is the string that the table holds for
    it. *)
Lemma _registry_from_region_Ok region registries registry :
  _registry_from_region region registries = Ok registry ->
  dict_get registries region = Some (JStr registry).
Proof.
  unfold _registry_from_region. intros H.
  apply bind_Ok in H as (_ & _ & H).
  apply bind_Ok in H as (v & Hv & H).
  apply getitem_Ok in Hv. apply as_str_Ok in H. now subst.
Qed.

(** Lines 160 to 163 put the URI together as [uri_of] does. *)
Lemma uri_of_eq registry hostname repo tag :
  registry ++ ".dkr." ++ hostname ++ "/"
  ++ (if negb (tag =? "") then repo ++ ":" ++ tag else repo)
  = uri_of registry hostname repo tag.
Proof.
  unfold uri_of. destruct (tag =? ""); cbn [negb];
    [now rewrite append_empty_r | reflexivity].
Qed.

(** [retrieve_from_config] is the sequence of its steps: the variables at
    line 117, then the tag and the URI. *)
Lemma retrieve_from_config_steps config framework region version py_version
    instance_type container_version distribution base_framework_version :
  retrieve_from_config ecr_hostname SPARK_NAME config framework region version
    py_version instance_type container_version distribution
    base_framework_version
  = r <- resolve_parts ecr_hostname SPARK_NAME config framework region
           version py_version instance_type container_version
           base_framework_version ;;
    uri_from framework version instance_type distribution
      base_framework_version r.
Proof.
  unfold retrieve_from_config, resolve_parts, resolve_version,
    version_config_of, config_of_version.
  cbv zeta.
  repeat (rewrite ?bind_assoc; cbn [bind]; apply bind_ext; intros ?).
  cbv zeta. now rewrite uri_of_eq.
Qed.

(** What the variables at line 117 are: the version, the Python version
    and the configuration that lines 90 to 103 resolve; the registry of
    the region and the repository that this configuration holds; the
    host name of the region; the processor of the instance type among
    the declared ones; and the container version. *)
Lemma resolve_parts_Ok config framework region version py_version
    instance_type container_version base_framework_version
    version' py_version' version_config registry hostname repo processor
    container_version' :
  resolve_parts ecr_hostname SPARK_NAME config framework region version
    py_version instance_type container_version base_framework_version
  = Ok (version', py_version', version_config, registry, hostname, repo,
        processor, container_version')
  <-> exists registries available_processors,
        resolve_version SPARK_NAME config framework version py_version
          base_framework_version = Ok (version', py_version', version_config)
        /\ dict_get version_config "registries" = Some (JDict registries)
        /\ _registry_from_region region registries = Ok registry
        /\ ecr_hostname region = Ok hostname
        /\ dict_get version_config "repository" = Some (JStr repo)
        /\ available_processors_of config version_config
           = Ok available_processors
        /\ _processor instance_type available_processors = Ok processor
        /\ container_version_of version_config processor container_version
           = Ok container_version'.
Proof.
  unfold resolve_parts. split.
  - intros H.
    apply bind_Ok in H as ([[v p] vc] & Hversion & H).
    apply bind_Ok in H as (registries0 & Hreg0 & H).
    apply bind_Ok in H as (registries & Hreg & H).
    apply bind_Ok in H as (registry0 & Hregistry & H).
    apply bind_Ok in H as (hostname0 & Hhost & H).
    apply bind_Ok in H as (repo0 & Hrepo0 & H).
    apply bind_Ok in H as (repo1 & Hrepo & H).
    apply bind_Ok in H as (available_processors & Hprocs & H).
    apply bind_Ok in H as (processor0 & Hproc & H).
    apply bind_Ok in H as (cv & Hcv & H).
    injection H as -> -> -> -> -> -> -> ->.
    apply getitem_Ok in Hreg0, Hrepo0.
    apply as_dict_Ok in Hreg. apply as_str_Ok in Hrepo. subst.
    exists registries, available_processors. repeat split; assumption.
  - intros (registries & available_processors & Hversion & Hregs & Hregistry
            & Hhost & Hrepo & Hprocs & Hproc & Hcv).
    rewrite Hversion. cbn [bind]. unfold getitem.
    rewrite Hregs. cbn [bind as_dict]. rewrite Hregistry, Hhost. cbn [bind].
    rewrite Hrepo. cbn [bind as_str]. rewrite Hprocs. cbn [bind].
    rewrite Hproc. cbn [bind]. now rewrite Hcv.
Qed.

(** A call that returns has chosen a configuration and resolved from
    it, and has a compiler configuration for no framework other than
    [huggingface]. *)
Lemma retrieve_Ok framework region version py_version instance_type
    accelerator_type image_scope container_version distribution
    base_framework_version training_compiler_config uri :
  retrieve config_for_framework ecr_hostname SPARK_NAME framework region
    version py_version instance_type accelerator_type image_scope
    container_version distribution base_framework_version
    training_compiler_config = Ok uri ->
  (is_some training_compiler_config = true -> framework = "huggingface")
  /\ exists config,
       _config_for_framework_and_scope config_for_framework
         (config_name framework training_compiler_config) image_scope
         accelerator_type = Ok config
       /\ retrieve_from_config ecr_hostname SPARK_NAME config framework
            region version py_version instance_type container_version
            distribution base_framework_version = Ok uri.
Proof.
  unfold retrieve, config_name. intros H.
  apply bind_Ok in H as (config & Hcfg & H).
  destruct (is_some training_compiler_config).
  - destruct (framework =? HUGGING_FACE_FRAMEWORK) eqn:F; [|discriminate].
    apply String.eqb_eq in F. split; [now intros _|]. now exists config.
  - split; [discriminate|]. now exists config.
Qed.

(** With a configuration chosen, and no compiler configuration for a
    framework other than [huggingface], a call is the resolution from
    that configuration. *)
Lemma retrieve_of_config framework region version py_version instance_type
    accelerator_type image_scope container_version distribution
    base_framework_version training_compiler_config config :
  (is_some training_compiler_config = true -> framework = "huggingface") ->
  _config_for_framework_and_scope config_for_framework
    (config_name framework training_compiler_config) image_scope
    accelerator_type = Ok config ->
  retrieve config_for_framework ecr_hostname SPARK_NAME framework region
    version py_version instance_type accelerator_type image_scope
    container_version distribution base_framework_version
    training_compiler_config
  = retrieve_from_config ecr_hostname SPARK_NAME config framework region
      version py_version instance_type container_version distribution
      base_framework_version.
Proof.
  unfold retrieve, config_name. intros Hfw Hcfg.
  destruct (is_some training_compiler_config).
  - rewrite (Hfw eq_refl) in *.
    change ("huggingface" =? HUGGING_FACE_FRAMEWORK) with true.
    cbv iota. now rewrite Hcfg.
  - now rewrite Hcfg.
Qed.


End Resolution.

(* ===================================================================== *)
(** ** The prefix of the tag in the URI of the composite framework         *)
(* ===================================================================== *)

Section CompositeTagPrefix.

Import ImageUris Spec Steps.

Variable config_for_framework : string -> result dict.
Variable ecr_hostname : string -> result string.
Variable SPARK_NAME : string.



End CompositeTagPrefix.



(* ===================================================================== *)
(** ** The form of the URI                                                 *)
(* ===================================================================== *)

Section UriForm.

Import ImageUris Spec Steps.

Variable config_for_framework : string -> result dict.
Variable ecr_hostname : string -> result string.
Variable SPARK_NAME : string.

(** The pattern of the specification matches a URI whose registry has no
    [.], whose host name has no [/] and whose repository and tag have no
    [:], none of the first three being empty. *)
Lemma is_uri_of_parts registry hostname repo tag :
  registry <> "" -> Re.all_chars (not_char ".") registry = true ->
  hostname <> "" -> Re.all_chars (not_char "/") hostname = true ->
  repo <> "" -> Re.all_chars (not_char ":") repo = true ->
  Re.all_chars (not_char ":") tag = true ->
  is_uri (registry ++ ".dkr." ++ hostname ++ "/" ++ repo
          ++ (if tag =? "" then "" else ":" ++ tag)) = true.
Proof.
  intros NR AR NH AH NP AP AT.
  destruct registry as [|a R]; [now elim NR|].
  destruct hostname as [|b H]; [now elim NH|].
  destruct repo as [|d P]; [now elim NP|].
  cbn [Re.all_chars] in AR, AH, AP.
  apply andb_true_iff in AR as [Aa AR].
  apply andb_true_iff in AH as [Ab AH].
  apply andb_true_iff in AP as [Ad AP].
  enough (exists m,
    Re.re_match uri_pattern
      (String a R ++ ".dkr." ++ String b H ++ "/" ++ String d P
       ++ (if tag =? "" then "" else ":" ++ tag)) = Some m) as (m & E).
  { unfold is_uri. now rewrite E. }
  assert (Head : forall rest m,
    Re.stops (not_char ":") rest = true ->
    (forall pos,
       Re.exec
         (Re.Seq (Re.Opt (Re.Group 1
                    (Re.Seq (Re.Chr ":") (Re.Plus (Re.Class (not_char ":"))))))
                 Re.Eol)
         pos rest [] (fun _ _ c => Some c) = Some m) ->
    Re.re_match uri_pattern
      (String a R ++ ".dkr." ++ String b H ++ "/" ++ String d P ++ rest)
    = Some m).
  { intros rest m Hstop Htail.
    unfold Re.re_match, uri_pattern.
    rewrite exec_Seq, exec_Bol, exec_Seq.
    eapply exec_Plus_Class with (a := a) (run := R);
      [reflexivity | exact Aa | exact AR | reflexivity |].
    rewrite exec_Seq, exec_Lit, exec_Seq.
    eapply exec_Plus_Class with (a := b) (run := H);
      [reflexivity | exact Ab | exact AH | reflexivity |].
    rewrite exec_Seq.
    rewrite (@exec_Chr "/" _ (String d P ++ rest)).
    rewrite exec_Seq.
    eapply exec_Plus_Class with (a := d) (run := P) (rest := rest);
      [reflexivity | exact Ad | exact AP | exact Hstop |].
    apply Htail. }
  destruct tag as [|t T].
  - cbn [String.eqb]. exists []. apply Head; [reflexivity|].
    intros pos. rewrite exec_Seq. unfold Re.Opt.
    rewrite exec_Alt, exec_Group, exec_Seq.
    rewrite exec_Chr_fail by reflexivity.
    rewrite exec_Empty, exec_Eol by reflexivity. reflexivity.
  - cbn [String.eqb]. cbn [Re.all_chars] in AT.
    apply andb_true_iff in AT as [At AT].
    exists [(1, String ":" (String t T))].
    apply Head; [reflexivity|].
    intros pos. rewrite exec_Seq. unfold Re.Opt.
    rewrite exec_Alt, exec_Group, exec_Seq.
    change (":" ++ String t T) with (String ":" (String t T)).
    rewrite exec_Chr.
    erewrite exec_Plus_Class with (a := t) (run := T) (rest := "")
      (res := [(1, String ":" (String t T))]);
      [reflexivity | now rewrite append_empty_r | exact At | exact AT
       | reflexivity |].
    rewrite exec_Eol by reflexivity.
    replace (S pos + S (String.length T) - pos)%nat
      with (S (S (String.length T))) by lia.
    cbn [substring]. now rewrite substring_full.
Qed.

(** C2, as amended. A call returns exactly when it has a compiler
    configuration for no framework other than [huggingface] and every
    step up to the prefix of the tag returns, and what it returns is
    [<registry>.dkr.<hostname>/<repository>], followed by [:<tag>]
    exactly when the tag is not empty.  The registry is the one that the
    configuration of the resolved version holds for the region, the
    repository the one that it names, and the host name the one of the
    region.  The tag is the join by [-] of the members of (tag prefix,
    processor, Python version, container version) that are not empty, in
    this order, followed by the suffix of the legacy table where the
    correction for auto-selected container versions applies; the four
    members are the prefix that lines 117 to 132 build, the processor
    of the instance type among the declared ones, the validated Python
    version, and the container version of the configuration or of the
    caller.  The result matches the pattern of the specification when
    the registry has no [.], the host name no [/], the repository and the
    tag no [:], and none of the first three is empty. *)
Theorem retrieve_builds_uri
    (framework region : string)
    (version py_version instance_type accelerator_type image_scope
       container_version : pystr)
    (distribution : option (list string)) (base_framework_version : pystr)
    (training_compiler_config : option unit) (uri : string) :
  retrieve config_for_framework ecr_hostname SPARK_NAME framework region
    version py_version instance_type accelerator_type image_scope
    container_version distribution base_framework_version
    training_compiler_config = Ok uri
  <-> (is_some training_compiler_config = true -> framework = "huggingface")
      /\ exists config version' py_version' version_config registries
                registry hostname repository available_processors processor
                container_version' tag_prefix,
           let tag :=
             auto_select_tag framework
               (String.concat "-"
                  (map str_of
                     (filter truthy
                        [tag_prefix; processor; py_version';
                         container_version'])))
               instance_type distribution in
           _config_for_framework_and_scope config_for_framework
             (config_name framework training_compiler_config) image_scope
             accelerator_type = Ok config
           /\ resolve_version SPARK_NAME config framework version py_version
                base_framework_version
              = Ok (version', py_version', version_config)
           /\ dict_get version_config "registries" = Some (JDict registries)
           /\ _registry_from_region region registries = Ok registry
           /\ dict_get registries region = Some (JStr registry)
           /\ ecr_hostname region = Ok hostname
           /\ dict_get version_config "repository" = Some (JStr repository)
           /\ available_processors_of config version_config
              = Ok available_processors
           /\ _processor instance_type available_processors = Ok processor
           /\ container_version_of version_config processor container_version
              = Ok container_version'
           /\ tag_prefix_of framework version_config version version'
                base_framework_version repository = Ok tag_prefix
           /\ uri = registry ++ ".dkr." ++ hostname ++ "/" ++ repository
                    ++ (if tag =? "" then "" else ":" ++ tag)
           /\ (registry <> "" ->
               Re.all_chars (not_char ".") registry = true ->
               hostname <> "" ->
               Re.all_chars (not_char "/") hostname = true ->
               repository <> "" ->
               Re.all_chars (not_char ":") repository = true ->
               Re.all_chars (not_char ":") tag = true ->
               is_uri uri = true).
Proof.
  split.
  - intros H. apply retrieve_Ok in H as (Hfw & config & Hcfg & H).
    split; [exact Hfw|].
    rewrite retrieve_from_config_steps in H.
    apply bind_Ok in H
      as ([[[[[[[version' py_version'] version_config] registry] hostname]
              repo] processor] container_version'] & Hparts & H).
    pose proof Hparts as Hparts'.
    apply resolve_parts_Ok in Hparts'
      as (registries & available_processors & Hversion & Hregs & Hregistry
          & Hhost & Hrepo & Hprocs & Hproc & Hcv).
    unfold uri_from in H.
    apply bind_Ok in H as (tag_prefix & Hprefix & H).
    cbv zeta in H. injection H as <-.
    exists config, version', py_version', version_config, registries,
      registry, hostname, repo, available_processors, processor,
      container_version', tag_prefix.
    cbv zeta.
    change (String.concat "-"
              (map str_of
                 (filter truthy
                    [tag_prefix; processor; py_version'; container_version'])))
      with (_format_tag tag_prefix processor py_version' container_version').
    repeat (split; [assumption|]).
    split; [now apply _registry_from_region_Ok|].
    repeat (split; [assumption|]).
    split; [reflexivity|].
    intros. now apply is_uri_of_parts.
  - intros (Hfw & config & version' & py_version' & version_config
            & registries & registry & hostname & repo & available_processors
            & processor & container_version' & tag_prefix & H).
    cbv zeta in H.
    destruct H as (Hcfg & Hversion & Hregs & Hregistry & _ & Hhost & Hrepo
                   & Hprocs & Hproc & Hcv & Hprefix & -> & _).
    rewrite (@retrieve_of_config config_for_framework ecr_hostname SPARK_NAME
               framework region version py_version instance_type
               accelerator_type image_scope container_version distribution
               base_framework_version training_compiler_config config
               Hfw Hcfg).
    rewrite retrieve_from_config_steps.
    assert (Hparts :
      resolve_parts ecr_hostname SPARK_NAME config framework region version
        py_version instance_type container_version base_framework_version
      = Ok (version', py_version', version_config, registry, hostname, repo,
            processor, container_version')).
    { apply resolve_parts_Ok.
      exists registries, available_processors. repeat split; assumption. }
    rewrite Hparts. cbn [bind]. unfold uri_from. rewrite Hprefix.
    reflexivity.
Qed.

End UriForm.

Lemma retrieve_builds_uri_witness :
  Examples.retrieve "tensorflow" "us-west-2" (Some "2.4.1") (Some "py37")
    (Some "ml.c5.xlarge") None (Some "training") None None None None
  = Ok ("763104351884.dkr.ecr.us-west-2.amazonaws.com/"
        ++ "tensorflow-training:2.4.1-cpu-py37")
  /\ Spec.is_uri ("763104351884.dkr.ecr.us-west-2.amazonaws.com/"
                  ++ "tensorflow-training:2.4.1-cpu-py37") = true.
Proof.
  pose proof (@retrieve_builds_uri Examples.config_for_framework
                Examples.ecr_hostname "spark" "tensorflow" "us-west-2"
                (Some "2.4.1") (Some "py37") (Some "ml.c5.xlarge") None
                (Some "training") None None None None
                ("763104351884.dkr.ecr.us-west-2.amazonaws.com/"
                 ++ "tensorflow-training:2.4.1-cpu-py37")) as [To From].
  assert (R : Examples.retrieve "tensorflow" "us-west-2" (Some "2.4.1")
                (Some "py37") (Some "ml.c5.xlarge") None (Some "training")
                None None None None
              = Ok ("763104351884.dkr.ecr.us-west-2.amazonaws.com/"
                    ++ "tensorflow-training:2.4.1-cpu-py37")).
  { apply From. split; [discriminate|].
    exists [ ("processors", JList ["cpu"; "gpu"]);
             ("version_aliases", JDict [("2.3", JStr "2.3.1")]);
             ("versions",
              JDict [ ("2.3.1", Examples.leaf "tensorflow-training" ["py37"]);
                      ("2.4.1", Examples.leaf "tensorflow-training" ["py37"])
                    ]) ],
      (Some "2.4.1"), (Some "py37"),
      [ ("registries", Examples.registries);
        ("repository", JStr "tensorflow-training");
        ("py_versions", JList ["py37"]) ],
      [ ("us-west-2", JStr "763104351884");
        ("cn-north-1", JStr "727897471807") ],
      "763104351884", "ecr.us-west-2.amazonaws.com", "tensorflow-training",
      ["cpu"; "gpu"], (Some "cpu"), None, (Some "2.4.1").
    cbv zeta. repeat (split; [reflexivity|]). intros. reflexivity. }
  split; [exact R|].
  destruct (To R)
    as (_ & config & version' & py_version' & version_config & registries
        & registry & hostname & repository & available_processors
        & processor & container_version' & tag_prefix & H).
  cbv zeta in H.
  destruct H as (Hcfg & Hversion & Hregs & _ & Hregistry & Hhost & Hrepo
                 & Hprocs & Hproc & Hcv & Hprefix & _ & Hmatch).
  vm_compute in Hcfg. injection Hcfg as <-.
  vm_compute in Hversion. injection Hversion as <- <- <-.
  vm_compute in Hregs. injection Hregs as <-.
  vm_compute in Hregistry. injection Hregistry as <-.
  vm_compute in Hhost. injection Hhost as <-.
  vm_compute in Hrepo. injection Hrepo as <-.
  vm_compute in Hprocs. injection Hprocs as <-.
  vm_compute in Hproc. injection Hproc as <-.
  vm_compute in Hcv. injection Hcv as <-.
  vm_compute in Hprefix. injection Hprefix as <-.
  apply Hmatch; solve [reflexivity | discriminate].
Defined.

(** C2, as the specification states it, fails.  A container version that
    the caller gives goes into the tag as it is, so a [:] in it makes a
    result that the pattern of the specification does not match; and on
    a [p4d] instance the tag of a legacy framework and version is longer
    than the join of its four members. *)
Lemma uri_as_specified_fails :
  (Examples.retrieve "tensorflow" "us-west-2" (Some "2.4.1") (Some "py37")
     (Some "ml.c5.xlarge") None (Some "training") (Some "a:b") None None None
   = Ok ("763104351884.dkr.ecr.us-west-2.amazonaws.com/"
         ++ "tensorflow-training:2.4.1-cpu-py37-a:b")
   /\ Spec.is_uri ("763104351884.dkr.ecr.us-west-2.amazonaws.com/"
                   ++ "tensorflow-training:2.4.1-cpu-py37-a:b") = false)
  /\ (Examples.retrieve "tensorflow" "us-west-2" (Some "2.3.1") (Some "py37")
        (Some "ml.p4d.24xlarge") None (Some "training") None None None None
      = Ok ("763104351884.dkr.ecr.us-west-2.amazonaws.com/"
            ++ "tensorflow-training:2.3.1-gpu-py37-cu110-ubuntu18.04")
      /\ ImageUris._format_tag (Some "2.3.1") (Some "gpu") (Some "py37") None
         = "2.3.1-gpu-py37").
Proof.
  repeat split; vm_compute; reflexivity.
Qed.

(* ===================================================================== *)
(** ** Arguments that the configuration makes redundant                    *)
(* ===================================================================== *)

Section SoleDeclaredValue.

Import ImageUris Spec Steps.

Variable config_for_framework : string -> result dict.
Variable ecr_hostname : string -> result string.
Variable SPARK_NAME : string.








End SoleDeclaredValue.



(* ===================================================================== *)
(** ** The identifier of the function of a Lambda step                     *)
(* ===================================================================== *)

Section FunctionArn.

Import Spec.

(** C8, as amended. When the function has no identifier and its creation
    raises a [ValueError] whose text holds [ResourceConflictException],
    the identifier is
    [arn:<partition>:lambda:<region>:<account>:function:<function-name>],
    with the partition [aws-cn] for the regions [cn-north-1] and
    [cn-northwest-1] and [aws] for every other region.  When the creation
    raises any other error, a [ValueError] without this text or an error
    of another class, this error reaches the caller as it is. *)
Theorem conflict_synthesizes_arn (self : LambdaStep.LambdaStep)
    (account : string) :
  LambdaStep.function_arn (LambdaStep.lambda_func self) = None ->
  LambdaStep.account_id (LambdaStep.lambda_func self) = Ok account ->
  (forall msg,
      LambdaStep.create (LambdaStep.lambda_func self)
        = Raise (ValueError msg) ->
      contains "ResourceConflictException" msg = true ->
      LambdaStep._get_function_arn self
      = Ok (LambdaStep.VStr
              (synthesized_arn
                 (LambdaStep.boto_region_name (LambdaStep.lambda_func self))
                 account
                 (str_of (LambdaStep.function_name
                            (LambdaStep.lambda_func self))))))
  /\ (forall e,
        LambdaStep.create (LambdaStep.lambda_func self) = Raise e ->
        (forall msg, e = ValueError msg ->
                     contains "ResourceConflictException" msg = false) ->
        LambdaStep._get_function_arn self = Raise e)
  /\ (forall region, partition_of region = "aws-cn"
                     <-> lower region = "cn-north-1"
                         \/ lower region = "cn-northwest-1")
  /\ (forall region, partition_of region = "aws-cn"
                     \/ partition_of region = "aws").
Proof.
  intros Harn Hacc. unfold LambdaStep._get_function_arn.
  rewrite Harn, Hacc. cbn [is_none bind].
  split; [|split; [|split]].
  - intros msg Hcreate Hmarker. rewrite Hcreate.
    cbn [bind LambdaStep.except_ValueError]. rewrite Hmarker. reflexivity.
  - intros e Hcreate He. rewrite Hcreate. cbn [bind].
    destruct e; try reflexivity.
    cbn [LambdaStep.except_ValueError]. now rewrite (He msg eq_refl).
  - intros region. unfold partition_of.
    destruct ((lower region =? "cn-north-1")
              || (lower region =? "cn-northwest-1")) eqn:E.
    + apply orb_true_iff in E. rewrite !String.eqb_eq in E.
      split; [intros _; exact E | reflexivity].
    + apply orb_false_iff in E as [A B].
      apply String.eqb_neq in A. apply String.eqb_neq in B.
      split; [discriminate | intros [H|H]; contradiction].
  - intros region. unfold partition_of.
    destruct ((lower region =? "cn-north-1")
              || (lower region =? "cn-northwest-1")); auto.
Qed.

Lemma conflict_synthesizes_arn_witness :
  LambdaStep._get_function_arn
    (Examples.step
       (Examples.failing_lambda "cn-north-1"
          (ValueError
             "{'Message': 'Function already exist', 'Code': 'ResourceConflictException'}")))
  = Ok (LambdaStep.VStr
          "arn:aws-cn:lambda:cn-north-1:123456789012:function:preprocess")
  /\ LambdaStep._get_function_arn
       (Examples.step
          (Examples.failing_lambda "us-west-2"
             (ValueError "FunctionName must be provided")))
     = Raise (ValueError "FunctionName must be provided").
Proof.
  split.
  - eapply (proj1 (@conflict_synthesizes_arn
              (Examples.step (Examples.failing_lambda "cn-north-1" _))
              "123456789012" eq_refl eq_refl)); reflexivity.
  - eapply (proj1 (proj2 (@conflict_synthesizes_arn
              (Examples.step (Examples.failing_lambda "us-west-2" _))
              "123456789012" eq_refl eq_refl))); [reflexivity|].
    intros msg E. injection E as <-. reflexivity.
Defined.

(** C8, as the specification states it, fails: an error that is not a
    [ValueError] is not handled, whatever its text. *)
Lemma conflict_of_another_class_propagates :
  contains "ResourceConflictException"
    "An error occurred (ResourceConflictException)" = true
  /\ LambdaStep._get_function_arn
       (Examples.step
          (Examples.failing_lambda "us-west-2"
             (OtherError "RuntimeError"
                "An error occurred (ResourceConflictException)")))
     = Raise (OtherError "RuntimeError"
                "An error occurred (ResourceConflictException)")
  /\ LambdaStep._get_function_arn
       (Examples.step
          (Examples.failing_lambda "us-west-2"
             (OtherError "RuntimeError"
                "An error occurred (ResourceConflictException)")))
     <> Ok (LambdaStep.VStr
              "arn:aws:lambda:us-west-2:123456789012:function:preprocess").
Proof.
  repeat split; try reflexivity. discriminate.
Qed.

End FunctionArn.

(* ===================================================================== *)
(** ** The request of a Lambda step                                        *)
(* ===================================================================== *)

Section StepRequest.

Variable super_to_request : LambdaStep.LambdaStep -> LambdaStep.request.

Lemma request_get_set d k v :
  LambdaStep.request_get (LambdaStep.request_set d k v) k = Some v.
Proof.
  induction d as [|[k' v'] d IH]; simpl.
  - now rewrite String.eqb_refl.
  - destruct (k' =? k) eqn:E; simpl; now rewrite E.
Qed.

Lemma enum_value_is_declared t :
  In (LambdaStep.enum_value t) ["String"; "Integer"; "Boolean"; "Float"].
Proof.
  destruct t; simpl; auto.
Qed.

(** C9. The request of a step holds, under [OutputParameters], one entry
    for each declared output, in the order of the declaration, and the
    entry of an output is [{"OutputName": <name>, "OutputType": <type>}]
    with a type among [String], [Integer], [Boolean] and [Float], which is
    [String] for an output that is built without a type.  The request is
    produced whenever the identifier of the function resolves. *)
Theorem to_request_lists_every_output (self : LambdaStep.LambdaStep) :
  (forall request,
      LambdaStep.to_request super_to_request self = Ok request ->
      exists entries,
        LambdaStep.request_get request "OutputParameters"
          = Some (LambdaStep.VList entries)
        /\ List.length entries = List.length (LambdaStep.outputs self)
        /\ forall i output,
             nth_error (LambdaStep.outputs self) i = Some output ->
             nth_error entries i
             = Some (LambdaStep.VDict
                       [ ("OutputName",
                          LambdaStep.value_of_pystr
                            (LambdaStep.output_name output));
                         ("OutputType",
                          LambdaStep.VStr
                            (LambdaStep.enum_value
                               (LambdaStep.output_type output))) ])
             /\ In (LambdaStep.enum_value (LambdaStep.output_type output))
                  ["String"; "Integer"; "Boolean"; "Float"])
  /\ (forall arn,
        LambdaStep._get_function_arn self = Ok arn ->
        exists request,
          LambdaStep.to_request super_to_request self = Ok request)
  /\ (forall output_name,
        LambdaStep.enum_value
          (LambdaStep.output_type
             (LambdaStep.new_LambdaOutput output_name None)) = "String").
Proof.
  split; [|split].
  - intros request H. unfold LambdaStep.to_request in H.
    destruct (LambdaStep._get_function_arn self) as [arn|e];
      cbn [bind] in H; [|discriminate H].
    injection H as <-.
    exists (map LambdaStep.LambdaOutput_to_request (LambdaStep.outputs self)).
    split; [apply request_get_set|]. split; [apply length_map|].
    intros i output Hi. split; [|apply enum_value_is_declared].
    rewrite nth_error_map, Hi. reflexivity.
  - intros arn H. unfold LambdaStep.to_request. rewrite H. cbn [bind].
    eexists. reflexivity.
  - reflexivity.
Qed.

End StepRequest.

Lemma to_request_lists_every_output_witness :
  exists entries,
    LambdaStep.request_get
      [ ("Name", LambdaStep.VStr "MyLambdaStep");
        ("Type", LambdaStep.VStr "Lambda");
        ("Arguments", LambdaStep.VDict []);
        ("FunctionArn",
         LambdaStep.VStr
           "arn:aws:lambda:us-west-2:123456789012:function:preprocess");
        ("OutputParameters",
         LambdaStep.VList
           [ LambdaStep.VDict [ ("OutputName", LambdaStep.VStr "A");
                                ("OutputType", LambdaStep.VStr "Integer") ];
             LambdaStep.VDict [ ("OutputName", LambdaStep.VStr "B");
                                ("OutputType", LambdaStep.VStr "String") ] ]) ]
      "OutputParameters"
    = Some (LambdaStep.VList entries)
    /\ List.length entries = 2.
Proof.
  destruct (proj1 (to_request_lists_every_output Examples.super_to_request
              (Examples.step
                 (Examples.failing_lambda "us-west-2"
                    (ValueError "ResourceConflictException")))) _ eq_refl)
    as (entries & Hget & Hlen & _).
  exists entries. split; [exact Hget | exact Hlen].
Defined.

(* ===================================================================== *)
(** * Further properties of [image_uris.py]                                *)
(* ===================================================================== *)

(** ** What [_processor] returns *)

Section ProcessorResults.

Import ImageUris Spec.

Lemma checked_Ok processor available_processors p :
  checked processor available_processors = Ok p ->
  p = Some processor /\ In processor available_processors.
Proof.
  unfold checked.
  destruct (str_in processor available_processors) eqn:E; [|discriminate].
  intros H. injection H as <-. split; [reflexivity | now apply str_in_In].
Qed.

Lemma _processor_omitted instance_type first others :
  truthy instance_type = false ->
  _processor instance_type (first :: others)
  = match others with
    | [] => Ok (Some first)
    | _ :: _ => Raise (ValueError empty_instance_type_message)
    end.
Proof.
  intros T. unfold _processor. rewrite T.
  cbn [List.length Nat.eqb negb andb hd_error].
  destruct others as [|second others]; cbn [List.length Nat.eqb];
    [reflexivity|].
  destruct instance_type as [[|a it]|]; try reflexivity. discriminate T.
Qed.

(** X1. A processor that [_processor] returns is one of the declared
    processors, and [_processor] returns no processor exactly when none
    is declared. *)
Theorem _processor_returns_declared
    (instance_type : pystr) (available_processors : list string) :
  (forall processor,
      _processor instance_type available_processors = Ok (Some processor) ->
      In processor available_processors)
  /\ (_processor instance_type available_processors = Ok None
      <-> available_processors = []).
Proof.
  destruct available_processors as [|first others].
  - split; [discriminate | now split].
  - assert (Split : forall p,
      _processor instance_type (first :: others) = Ok p ->
      exists processor, p = Some processor /\ In processor (first :: others)).
    { intros p H.
      destruct (truthy instance_type) eqn:T.
      - destruct instance_type as [[|a it]|]; try discriminate T.
        rewrite _processor_of_instance_type in H.
        match type of H with
        | bind ?m _ = _ => destruct m as [processor|e]
        end; cbn [bind] in H; [|discriminate H].
        rewrite validate_then_return in H.
        apply checked_Ok in H as [-> I]. now exists processor.
      - rewrite (_processor_omitted _ first others T) in H.
        destruct others; [|discriminate H].
        injection H as <-. exists first. split; [reflexivity | now left]. }
    split.
    + intros processor H. apply Split in H as (q & E & I).
      now injection E as ->.
    + split; [|discriminate].
      intros H. apply Split in H as (q & E & _). discriminate E.
Qed.

Lemma _processor_returns_declared_witness :
  In "gpu" ["cpu"; "gpu"]
  /\ ImageUris._processor (Some "ml.p3.2xlarge") [] = Ok None.
Proof.
  split.
  - apply (proj1 (_processor_returns_declared (Some "ml.p3.2xlarge")
                    ["cpu"; "gpu"])). reflexivity.
  - apply (proj2 (_processor_returns_declared (Some "ml.p3.2xlarge") [])).
    reflexivity.
Defined.

(** X2. Without an instance type ([None] or the empty string),
    [_processor] returns the declared processor when exactly one is
    declared, and fails with the [ValueError] for an empty instance type
    when two or more are declared. *)
Theorem _processor_without_instance_type
    (instance_type : pystr) (available_processors : list string) :
  instance_type = None \/ instance_type = Some "" ->
  (forall only, available_processors = [only] ->
     _processor instance_type available_processors = Ok (Some only))
  /\ (2 <= List.length available_processors ->
      _processor instance_type available_processors
      = Raise (ValueError
          "Empty SageMaker instance type. For options, see: https://aws.amazon.com/sagemaker/pricing/instance-types")).
Proof.
  intros Hit.
  assert (T : truthy instance_type = false) by (destruct Hit; now subst).
  split.
  - intros only ->. now rewrite _processor_omitted.
  - intros L. destruct available_processors as [|first [|second others]];
      simpl in L; try lia.
    now rewrite _processor_omitted.
Qed.

Lemma _processor_without_instance_type_witness :
  ImageUris._processor (Some "") ["cpu"] = Ok (Some "cpu")
  /\ ImageUris._processor None ["cpu"; "gpu"]
     = Raise (ValueError ImageUris.empty_instance_type_message).
Proof.
  split.
  - apply (proj1 (@_processor_without_instance_type (Some "") ["cpu"]
                    (or_intror eq_refl))). reflexivity.
  - apply (proj2 (@_processor_without_instance_type None ["cpu"; "gpu"]
                    (or_introl eq_refl))). simpl. lia.
Defined.

End ProcessorResults.

(** ** What the pattern of the instance types accepts *)

Section InstanceTypes.

Import Re.

Lemma exec_Class p a pos s c k :
  p a = true -> exec (Class p) pos (String a s) c k = k (S pos) s c.
Proof.
  intros H. simpl. now rewrite H.
Qed.

(** X3. An instance type [ml.<family>], [ml_<family>],
    [ml.<family>.<size>] or [ml_<family>.<size>], where the family is one
    or more lower-case letters and digits and the size is made of word
    characters, has this family. *)
Theorem instance_family_of_well_formed (sep : ascii) (family size : string) :
  sep = "."%char \/ sep = "_"%char ->
  family <> "" ->
  all_chars (fun c => a_z c || digit c) family = true ->
  all_chars word size = true ->
  instance_family ("ml" ++ String sep family) = Some family
  /\ instance_family ("ml" ++ String sep (family ++ "." ++ size))
     = Some family.
Proof.
  intros Hsep Hne Hfam Hsize.
  destruct family as [|a f]; [now elim Hne|].
  cbn [all_chars] in Hfam. apply andb_true_iff in Hfam as [Ha Hf].
  assert (Sep : (Ascii.eqb sep "." || Ascii.eqb sep "_") = true).
  { destruct Hsep as [-> | ->]; reflexivity. }
  assert (Run : forall rest tail,
    stops (fun c => a_z c || digit c) rest = true ->
    (forall pos c,
       exec (Seq (Opt (Chr ".")) (Seq (Star (Class word)) Eol)) pos rest c
         (fun _ _ c' => Some c') = Some c) ->
    tail = String a f ++ rest ->
    instance_family ("ml" ++ String sep tail) = Some (String a f)).
  { intros rest tail Hstop Htail ->.
    unfold instance_family, re_match, instance_type_pattern.
    rewrite exec_Seq, exec_Bol, exec_Seq, (exec_Lit "ml"), exec_Seq.
    rewrite exec_Class by exact Sep.
    rewrite exec_Seq, exec_Group.
    erewrite exec_Plus_Class with (a := a) (run := f) (rest := rest);
      [|reflexivity | exact Ha | exact Hf | exact Hstop | apply Htail].
    cbn [group Nat.eqb].
    replace (S (0 + String.length "ml") + S (String.length f)
             - S (0 + String.length "ml"))%nat
      with (String.length (String a f)) by (simpl; lia).
    now rewrite substring_prefix. }
  split.
  - apply Run with (rest := ""); [reflexivity | | now rewrite append_empty_r].
    intros pos c. rewrite exec_Seq. unfold Opt.
    rewrite exec_Alt, exec_Chr_fail by reflexivity.
    rewrite exec_Empty, exec_Seq.
    erewrite exec_Star_Class with (run := "") (rest := "");
      [reflexivity | reflexivity | reflexivity | reflexivity |].
    now rewrite exec_Eol.
  - apply Run with (rest := "." ++ size); [reflexivity | | reflexivity].
    intros pos c. rewrite exec_Seq. unfold Opt. rewrite exec_Alt.
    change ("." ++ size) with (String "." size).
    rewrite exec_Chr, exec_Seq.
    erewrite exec_Star_Class with (run := size) (rest := "");
      [reflexivity | now rewrite append_empty_r | exact Hsize | reflexivity |].
    now rewrite exec_Eol.
Qed.

Lemma instance_family_of_well_formed_witness :
  instance_family "ml_g4dn" = Some "g4dn"
  /\ instance_family "ml.g4dn.12xlarge" = Some "g4dn".
Proof.
  split.
  - apply (@instance_family_of_well_formed "_" "g4dn" "12xlarge");
      [now right | discriminate | reflexivity | reflexivity].
  - apply (@instance_family_of_well_formed "." "g4dn" "12xlarge");
      [now left | discriminate | reflexivity | reflexivity].
Defined.

Lemma matches_Lit w : forall pos s c pos' s' c',
  matches (Lit w) (pos, s, c) (pos', s', c') ->
  s = w ++ s' /\ pos' = (pos + String.length w)%nat /\ c' = c.
Proof.
  induction w as [|a w IH]; intros pos s c pos' s' c' H; simpl in H.
  - inversion H; subst.
    split; [reflexivity | split; [simpl; lia | reflexivity]].
  - inversion H as [| |r1 r2 st1 st2 st3 HC HL| | | | | | |]; subst.
    unfold Chr in HC.
    inversion HC as [|p b pos0 s0 c0 Hp| | | | | | | |]; subst.
    apply Ascii.eqb_eq in Hp. subst b.
    apply IH in HL as (-> & -> & ->).
    split; [reflexivity | split; [simpl; lia | reflexivity]].
Qed.

Lemma matches_Star_Class p st st' :
  matches (Star (Class p)) st st' ->
  exists run,
    snd (fst st) = run ++ snd (fst st')
    /\ all_chars p run = true
    /\ fst (fst st') = (fst (fst st) + String.length run)%nat
    /\ snd st' = snd st.
Proof.
  remember (Star (Class p)) as r eqn:R. intros H.
  induction H; try discriminate R.
  - exists "".
    split; [reflexivity | split; [reflexivity | split; [simpl; lia|]]].
    reflexivity.
  - injection R as ->.
    destruct (IHmatches2 eq_refl) as (run & E & A & P & C).
    inversion H as [|p0 a pos s c Hp| | | | | | | |].
    rewrite <- H4 in E, P, C. simpl in E, P, C.
    exists (String a run). simpl.
    split; [now rewrite E|]. split; [now rewrite Hp|].
    split; [lia | exact C].
Qed.

(** X4. An instance type that has a family is [ml.] or [ml_], then the
    family, then what is left; and the family is one or more lower-case
    letters and digits. *)
Theorem instance_family_is_after_ml (instance_type family : string) :
  instance_family instance_type = Some family ->
  exists sep rest,
    instance_type = "ml" ++ String sep (family ++ rest)
    /\ (sep = "."%char \/ sep = "_"%char)
    /\ family <> ""
    /\ all_chars (fun c => a_z c || digit c) family = true.
Proof.
  unfold instance_family, re_match.
  destruct (exec instance_type_pattern 0 instance_type [] _) as [caps|] eqn:E;
    [|discriminate].
  intros G. apply exec_sound in E as (pos' & s' & c' & Hm & Hk).
  injection Hk as <-.
  unfold instance_type_pattern in Hm.
  inversion Hm as [| |? ? ? st1 ? HBol H1| | | | | | |]; subst.
  inversion HBol; subst.
  inversion H1 as [| |? ? ? [[p2 s2] c2] ? HLit H2| | | | | | |]; subst.
  apply (matches_Lit "ml") in HLit as (-> & -> & ->).
  inversion H2 as [| |? ? ? [[p3 s3] c3] ? HSep H3| | | | | | |]; subst.
  inversion HSep as [|p0 sep pos0 s0 c0 Hsep| | | | | | | |]; subst.
  inversion H3 as [| |? ? ? [[p4 s4] c4] ? HGrp H4| | | | | | |]; subst.
  assert (C4 := matches_groupless H4 eq_refl). simpl in C4. subst c'.
  inversion HGrp as [| | | | | | |n0 r0 pos0 s0 c0 pos1 s1 c1 HP| |]; subst.
  unfold Plus in HP.
  inversion HP as [| |r1 r2 st1 [[p5 s5] c5] st3 HC HS| | | | | | |]; subst.
  inversion HC as [|p0 a pos0 s0 c0 Ha| | | | | | | |]; subst.
  apply matches_Star_Class in HS as (run & Es & Arun & Ep & Ec).
  simpl in Es, Ep, Ec. subst.
  simpl in G.
  replace (S (0 + String.length "ml") + String.length run
           - (0 + String.length "ml"))%nat
    with (String.length (String a run)) in G by (simpl; lia).
  change (String a (run ++ s4)) with (String a run ++ s4) in G.
  rewrite substring_prefix in G. injection G as <-.
  exists sep, s4. split; [reflexivity|]. split.
  - apply orb_true_iff in Hsep as [H|H]; apply Ascii.eqb_eq in H; auto.
  - split; [discriminate|]. cbn [all_chars]. now rewrite Ha, Arun.
Qed.

Lemma instance_family_is_after_ml_witness :
  exists sep rest,
    "ml.p4d.24xlarge" = "ml" ++ String sep ("p4d" ++ rest)
    /\ (sep = "."%char \/ sep = "_"%char).
Proof.
  destruct (@instance_family_is_after_ml "ml.p4d.24xlarge" "p4d" eq_refl)
    as (sep & rest & E & S & _).
  now exists sep, rest.
Defined.

End InstanceTypes.

(** ** Versions, aliases and registries *)

Section Versions.

Import ImageUris Spec.

Lemma dict_get_None d k : dict_get d k = None <-> str_in k (keys d) = false.
Proof.
  unfold str_in, keys. induction d as [|[k' v] d IH]; simpl.
  - now split.
  - rewrite (String.eqb_sym k k'). destruct (k' =? k); simpl.
    + split; discriminate.
    + exact IH.
Qed.

Lemma dict_get_Some d k :
  str_in k (keys d) = true -> exists v, dict_get d k = Some v.
Proof.
  intros H. destruct (dict_get d k) as [v|] eqn:E; [now exists v|].
  apply dict_get_None in E. congruence.
Qed.

Lemma _validate_arg_Ok arg options arg_name :
  _validate_arg arg options arg_name = Ok tt <-> py_in arg options = true.
Proof.
  unfold _validate_arg. destruct (py_in arg options); simpl;
    split; congruence.
Qed.

Lemma validated_version version config framework versions aliases v :
  dict_get config "versions" = Some (JDict versions) ->
  declared_aliases config aliases ->
  _validate_version_and_set_if_needed version config framework = Ok v ->
  exists s, v = Some s /\ In s (keys versions ++ keys aliases)%list
            /\ (v = version \/ py_in version (keys aliases) = false).
Proof.
  intros Hv Ha H.
  unfold _validate_version_and_set_if_needed, getitem in H.
  rewrite Hv in H. cbn [bind as_dict] in H.
  assert (A : match dict_get config "version_aliases" with
              | Some a => as_dict a
              | None => Ok []
              end = Ok aliases).
  { destruct Ha as [-> | [-> ->]]; reflexivity. }
  rewrite A in H. cbn [bind] in H.
  destruct (Nat.eqb (List.length (keys versions)) 1
            && negb (py_in version (keys aliases))) eqn:C.
  - apply andb_true_iff in C as [L N]. apply negb_true_iff in N.
    destruct (keys versions) as [|only [|]] eqn:K; try discriminate L.
    injection H as <-. exists only.
    split; [reflexivity|]. split; [now left | now right].
  - destruct (_validate_arg version (keys versions ++ keys aliases)%list _)
      as [[]|e] eqn:V; cbn [bind] in H; [|discriminate H].
    injection H as <-. apply _validate_arg_Ok in V.
    destruct version as [s|]; [|discriminate V].
    exists s. split; [reflexivity|]. split; [now apply str_in_In | now left].
Qed.

(** X5. A version that [_validate_version_and_set_if_needed] returns is
    a declared version or a declared alias.  When one version is declared,
    every given version that is not an alias, supported or not, is
    replaced by the declared one. *)
Theorem _validate_version_returns_declared
    (version : pystr) (config : dict) (framework : string)
    (versions aliases : dict) :
  dict_get config "versions" = Some (JDict versions) ->
  declared_aliases config aliases ->
  (forall v,
      _validate_version_and_set_if_needed version config framework = Ok v ->
      exists s, v = Some s /\ In s (keys versions ++ keys aliases)%list)
  /\ (forall only,
        keys versions = [only] ->
        py_in version (keys aliases) = false ->
        _validate_version_and_set_if_needed version config framework
        = Ok (Some only)).
Proof.
  intros Hv Ha. split.
  - intros v H.
    destruct (validated_version _ _ Hv Ha H) as (s & E & I & _).
    now exists s.
  - intros only K N.
    unfold _validate_version_and_set_if_needed, getitem.
    rewrite Hv. cbn [bind as_dict].
    destruct Ha as [-> | [-> ->]]; cbn [bind as_dict];
      rewrite K; cbn [List.length Nat.eqb andb hd_error]; now rewrite N.
Qed.

Lemma _validate_version_returns_declared_witness :
  ImageUris._validate_version_and_set_if_needed (Some "9.9")
    Examples.huggingface_training "huggingface" = Ok (Some "4.6.1")
  /\ exists s, Some "4.6" = Some s /\ In s ["4.6.1"; "4.6"].
Proof.
  pose proof (@_validate_version_returns_declared (Some "9.9")
                Examples.huggingface_training "huggingface" _ _
                eq_refl (or_introl eq_refl)) as [_ Only].
  pose proof (@_validate_version_returns_declared (Some "4.6")
                Examples.huggingface_training "huggingface" _ _
                eq_refl (or_introl eq_refl)) as [Declared _].
  split.
  - apply Only; reflexivity.
  - apply Declared. reflexivity.
Defined.

(** X6. In a configuration whose aliases stand for declared versions,
    the version that [_validate_version_and_set_if_needed] returns has a
    configuration: [_version_for_config] turns it into a key of
    [versions], so the lookup of [retrieve] raises no [KeyError]. *)
Theorem validated_version_has_a_configuration
    (version : pystr) (config : dict) (framework : string)
    (versions aliases : dict) (v : pystr) :
  dict_get config "versions" = Some (JDict versions) ->
  declared_aliases config aliases ->
  aliases_point_to aliases versions ->
  _validate_version_and_set_if_needed version config framework = Ok v ->
  exists key version_config,
    _version_for_config v config = Ok (Some key)
    /\ getitem versions (Some key) = Ok version_config.
Proof.
  intros Hv Ha Hp H.
  destruct (validated_version _ _ Hv Ha H) as (s & -> & I & _).
  assert (Declared : forall key,
    In key (keys versions) ->
    exists version_config, getitem versions (Some key) = Ok version_config).
  { intros key K. apply str_in_In in K.
    apply dict_get_Some in K as (vc & E).
    exists vc. unfold getitem. now rewrite E. }
  unfold _version_for_config.
  destruct Ha as [Ha | [Ha ->]]; rewrite Ha.
  - cbn [as_dict bind py_in].
    destruct (str_in s (keys aliases)) eqn:A.
    + destruct (dict_get_Some _ _ A) as (target & T).
      destruct (Hp _ _ T) as (key & -> & K).
      exists key. destruct (Declared key K) as (vc & E). exists vc.
      unfold getitem at 1. rewrite T. cbn [bind as_str]. now split.
    + exists s. apply in_app_or in I as [K|K].
      * destruct (Declared s K) as (vc & E). exists vc. now split.
      * apply str_in_In in K. congruence.
  - exists s. rewrite app_nil_r in I.
    destruct (Declared s I) as (vc & E). exists vc. now split.
Qed.

Lemma validated_version_has_a_configuration_witness :
  exists key version_config,
    ImageUris._version_for_config (Some "4.6") Examples.huggingface_training
    = Ok (Some key)
    /\ getitem
         [ ("4.6.1",
            JDict [ ("version_aliases",
                     JDict [("pytorch1.7", JStr "pytorch1.7.1")]);
                    ("pytorch1.7.1",
                     Examples.leaf "huggingface-pytorch-training" ["py36"]) ])
         ] (Some key) = Ok version_config.
Proof.
  apply (@validated_version_has_a_configuration (Some "4.6")
           Examples.huggingface_training "huggingface" _
           [("4.6", JStr "4.6.1")] (Some "4.6") eq_refl (or_introl eq_refl)).
  - intros alias target T. cbn [dict_get] in T.
    destruct ("4.6" =? alias); [|discriminate T].
    injection T as <-. exists "4.6.1". split; [reflexivity | now left].
  - reflexivity.
Defined.

(** X7. [_registry_from_region] returns the registry of a region exactly
    when the table of registries holds it; for a region that the table
    does not hold it raises the [ValueError] that lists the regions, and
    it never raises a [KeyError]. *)
Theorem _registry_from_region_is_the_lookup
    (region : string) (registry_dict : dict) :
  (forall registry,
      _registry_from_region region registry_dict = Ok registry
      <-> dict_get registry_dict region = Some (JStr registry))
  /\ (dict_get registry_dict region = None ->
      _registry_from_region region registry_dict
      = Raise (ValueError
                 (unsupported_message "region" (Some region)
                    (keys registry_dict))))
  /\ (forall key, _registry_from_region region registry_dict
                  <> Raise (KeyError key)).
Proof.
  unfold _registry_from_region, _validate_arg, getitem. cbn [py_in].
  destruct (dict_get registry_dict region) as [v|] eqn:E.
  - assert (S : str_in region (keys registry_dict) = true).
    { destruct (str_in region (keys registry_dict)) eqn:S; [reflexivity|].
      apply dict_get_None in S. congruence. }
    rewrite S. cbn [negb bind].
    split; [|split]; [|discriminate|].
    + intros registry. destruct v; simpl; split; congruence.
    + intros key. destruct v; simpl; discriminate.
  - apply dict_get_None in E. rewrite E. cbn [negb bind].
    split; [|split]; [|reflexivity|discriminate].
    intros registry. split; discriminate.
Qed.

End Versions.

(** ** Python versions *)

Section PythonVersions.

Import ImageUris Spec.

Variable SPARK_NAME : string.

Lemma available_py_versions version_config declared :
  declared_py_versions version_config declared ->
  (if has_key version_config "repository"
   then match dict_get version_config "py_versions" with
        | Some l => if json_truthy l then as_list l else Ok []
        | None => Ok []
        end
   else Ok (keys version_config)) = Ok declared.
Proof.
  unfold declared_py_versions.
  destruct (has_key version_config "repository").
  - intros [-> | [-> ->]]; [|reflexivity].
    destruct declared; reflexivity.
  - now intros ->.
Qed.

(** X8. A Python version that
    [_validate_py_version_and_set_if_needed] returns is one of the
    declared Python versions; and when none is declared it returns no
    Python version, whatever is given. *)
Theorem _validate_py_version_returns_declared
    (py_version : pystr) (version_config : dict) (framework : string)
    (declared : list string) :
  declared_py_versions version_config declared ->
  (forall py,
      _validate_py_version_and_set_if_needed SPARK_NAME py_version
        version_config framework = Ok (Some py) ->
      In py declared)
  /\ (declared = [] ->
      _validate_py_version_and_set_if_needed SPARK_NAME py_version
        version_config framework = Ok None).
Proof.
  intros D. unfold _validate_py_version_and_set_if_needed.
  rewrite (@available_py_versions version_config declared D). cbn [bind]. split.
  - intros py H.
    destruct declared as [|first others]; [discriminate H|].
    cbn [List.length Nat.eqb] in H.
    destruct (is_none py_version && (SPARK_NAME =? framework));
      [discriminate H|].
    destruct (is_none py_version && Nat.eqb (List.length others) 0).
    + injection H as <-. now left.
    + destruct (_validate_arg py_version (first :: others) _) as [[]|e] eqn:V;
        cbn [bind] in H; [|discriminate H].
      injection H as ->. apply _validate_arg_Ok in V. now apply str_in_In.
  - now intros ->.
Qed.

(** X9. For the framework [SPARK_NAME] an omitted Python version stays
    omitted, also when one Python version is declared; for every other
    framework an omitted Python version becomes the declared one when
    exactly one is declared. *)
Theorem omitted_py_version_defaults_except_for_spark
    (version_config : dict) (framework : string) (declared : list string) :
  declared_py_versions version_config declared ->
  (framework = SPARK_NAME ->
     _validate_py_version_and_set_if_needed SPARK_NAME None version_config
       framework = Ok None)
  /\ (forall only,
        framework <> SPARK_NAME ->
        declared = [only] ->
        _validate_py_version_and_set_if_needed SPARK_NAME None version_config
          framework = Ok (Some only)).
Proof.
  intros D. unfold _validate_py_version_and_set_if_needed.
  rewrite (@available_py_versions version_config declared D). cbn [bind is_none andb]. split.
  - intros ->. rewrite String.eqb_refl.
    now destruct (Nat.eqb (List.length declared) 0).
  - intros only N ->. cbn [List.length Nat.eqb hd_error].
    assert (E : (SPARK_NAME =? framework) = false).
    { apply String.eqb_neq. congruence. }
    now rewrite E.
Qed.

End PythonVersions.

Lemma _validate_py_version_returns_declared_witness :
  In "py37" ["py37"; "py38"]
  /\ ImageUris._validate_py_version_and_set_if_needed "spark" (Some "py3")
       [ ("registries", Examples.registries);
         ("repository", JStr "xgboost") ] "xgboost" = Ok None.
Proof.
  split.
  - apply (proj1 (@_validate_py_version_returns_declared "spark"
             (Some "py37")
             [ ("registries", Examples.registries);
               ("repository", JStr "tensorflow-training");
               ("py_versions", JList ["py37"; "py38"]) ]
             "tensorflow" ["py37"; "py38"] (or_introl eq_refl))).
    reflexivity.
  - apply (proj2 (@_validate_py_version_returns_declared "spark"
             (Some "py3")
             [ ("registries", Examples.registries);
               ("repository", JStr "xgboost") ]
             "xgboost" [] (or_intror (conj eq_refl eq_refl)))).
    reflexivity.
Defined.

Lemma omitted_py_version_defaults_except_for_spark_witness :
  ImageUris._validate_py_version_and_set_if_needed "spark" None
    [ ("py3", Examples.leaf "sagemaker-spark-processing" []) ] "spark"
  = Ok None
  /\ ImageUris._validate_py_version_and_set_if_needed "spark" None
       [ ("py3", Examples.leaf "sagemaker-chainer" []) ] "chainer"
     = Ok (Some "py3").
Proof.
  split.
  - apply (proj1 (@omitted_py_version_defaults_except_for_spark "spark"
             [ ("py3", Examples.leaf "sagemaker-spark-processing" []) ]
             "spark" ["py3"] eq_refl)). reflexivity.
  - apply (proj2 (@omitted_py_version_defaults_except_for_spark "spark"
             [ ("py3", Examples.leaf "sagemaker-chainer" []) ]
             "chainer" ["py3"] eq_refl)); [discriminate | reflexivity].
Defined.

(** ** The scope of the image *)

Section Scopes.

Import ImageUris Spec.

Variable config_for_framework : string -> result dict.
Variable ecr_hostname : string -> result string.
Variable SPARK_NAME : string.

Lemma valid_accelerator_truthy accelerator_type :
  valid_accelerator accelerator_type ->
  truthy (Some accelerator_type) = true
  /\ _validate_accelerator_type accelerator_type = Ok tt.
Proof.
  unfold _validate_accelerator_type.
  intros [H | ->]; [|split; reflexivity].
  rewrite H. split; [|reflexivity].
  destruct accelerator_type; [discriminate H | reflexivity].
Qed.

Lemma accelerator_forces_eia framework image_scope accelerator_type :
  valid_accelerator accelerator_type ->
  _config_for_framework_and_scope config_for_framework framework image_scope
    (Some accelerator_type)
  = _config_for_framework_and_scope config_for_framework framework
      (Some "eia") None.
Proof.
  intros V. destruct (valid_accelerator_truthy V) as [T A].
  unfold _config_for_framework_and_scope.
  apply bind_ext. intros config.
  rewrite T. cbn [str_of truthy]. now rewrite A.
Qed.

(** X10. With an accelerator type that is accepted (one that begins with
    [ml.eia], or [local_sagemaker_notebook]) the scope that the caller
    gives is ignored: [retrieve] returns what it returns for the scope
    [eia] without an accelerator type. *)
Theorem accelerator_type_replaces_scope
    (framework region accelerator_type : string)
    (version py_version instance_type image_scope container_version : pystr)
    (distribution : option (list string)) (base_framework_version : pystr)
    (training_compiler_config : option unit) :
  valid_accelerator accelerator_type ->
  retrieve config_for_framework ecr_hostname SPARK_NAME framework region
    version py_version instance_type (Some accelerator_type) image_scope
    container_version distribution base_framework_version
    training_compiler_config
  = retrieve config_for_framework ecr_hostname SPARK_NAME framework region
      version py_version instance_type None (Some "eia")
      container_version distribution base_framework_version
      training_compiler_config.
Proof.
  intros V. unfold retrieve.
  now rewrite !(accelerator_forces_eia _ image_scope V).
Qed.


(** X12. The configuration that [_config_for_framework_and_scope]
    returns is the whole file when the file has the key [scope], and
    otherwise the part of the file under one of its keys. *)
Theorem scoped_configuration_comes_from_the_file
    (framework : string) (image_scope accelerator_type : pystr)
    (scoped : dict) :
  _config_for_framework_and_scope config_for_framework framework image_scope
    accelerator_type = Ok scoped ->
  exists config,
    config_for_framework framework = Ok config
    /\ ((has_key config "scope" = true /\ scoped = config)
        \/ (has_key config "scope" = false
            /\ exists scope, In scope (keys config)
                             /\ dict_get config scope = Some (JDict scoped))).
Proof.
  unfold _config_for_framework_and_scope. intros H.
  apply bind_Ok in H as (config & Hcfg & H).
  exists config. split; [exact Hcfg|].
  apply bind_Ok in H as (scope1 & _ & H).
  apply bind_Ok in H as (available & Ha & H).
  apply bind_Ok in H as (scope2 & _ & H).
  match type of H with
  | bind (_validate_arg ?x _ _) _ = _ => set (scope3 := x) in H
  end.
  destruct (_validate_arg scope3 available "image scope") as [[]|e] eqn:V;
    cbn [bind] in H; [|discriminate H].
  apply _validate_arg_Ok in V.
  destruct (has_key config "scope") eqn:K.
  - left. injection H as <-. now split.
  - right. split; [reflexivity|].
    apply dict_get_None in K. rewrite K in Ha. injection Ha as <-.
    destruct scope3 as [scope|]; [|discriminate V].
    exists scope. split; [now apply str_in_In|].
    apply bind_Ok in H as (v & Hv & H). unfold getitem in Hv.
    destruct (dict_get config scope) as [w|]; [|discriminate Hv].
    injection Hv as ->. destruct v; try discriminate H.
    now injection H as ->.
Qed.

Lemma training_inference_has_two l :
  is_training_inference l = true ->
  Nat.eqb (List.length l) 1 = false /\ exists h, hd_error l = Some h /\ In h l.
Proof.
  unfold is_training_inference. intros H.
  apply andb_true_iff in H as [H I]. apply andb_true_iff in H as [_ T].
  apply str_in_In in T. apply str_in_In in I.
  destruct l as [|h [|h' l]].
  - now elim T.
  - destruct T as [->|[]]. destruct I as [E|[]]. discriminate E.
  - split; [reflexivity|]. exists h. split; [reflexivity | now left].
Qed.

(** X13. Without a scope and without an accelerator type, a file that
    lists exactly [training] and [inference] under [scope] resolves to
    itself, while a file without the key [scope] that has no or several
    keys fails with the [ValueError] that lists its keys. *)
Theorem omitted_scope
    (framework : string) (config : dict) (accelerator_type : pystr) :
  config_for_framework framework = Ok config ->
  truthy accelerator_type = false ->
  (forall scopes,
      dict_get config "scope" = Some (JList scopes) ->
      is_training_inference scopes = true ->
      _config_for_framework_and_scope config_for_framework framework None
        accelerator_type = Ok config)
  /\ (dict_get config "scope" = None ->
      List.length (keys config) <> 1 ->
      _config_for_framework_and_scope config_for_framework framework None
        accelerator_type
      = Raise (ValueError
                 (unsupported_message "image scope" None (keys config)))).
Proof.
  intros Hcfg Hacc. unfold _config_for_framework_and_scope.
  rewrite Hcfg, Hacc. cbn [bind]. split.
  - intros scopes S TI.
    assert (K : has_key config "scope" = true).
    { destruct (has_key config "scope") eqn:K; [reflexivity|].
      apply dict_get_None in K. congruence. }
    destruct (training_inference_has_two _ TI) as (L & h & Hh & I).
    rewrite S, K. cbn [as_list bind]. rewrite L. cbn [bind truthy negb andb].
    rewrite TI, Hh. unfold _validate_arg. cbn [py_in].
    apply str_in_In in I. now rewrite I.
  - intros S L.
    assert (K : has_key config "scope" = false) by now apply dict_get_None.
    rewrite S, K. cbn [bind].
    apply Nat.eqb_neq in L. rewrite L. reflexivity.
Qed.

End Scopes.

Lemma accelerator_type_replaces_scope_witness :
  Examples.retrieve "tensorflow" "us-west-2" (Some "2.3.1") None
    (Some "ml.c5.xlarge") (Some "ml.eia1.medium") (Some "training") None
    None None None
  = Examples.retrieve "tensorflow" "us-west-2" (Some "2.3.1") None
      (Some "ml.c5.xlarge") None (Some "eia") None None None None.
Proof.
  apply (@accelerator_type_replaces_scope Examples.config_for_framework
           Examples.ecr_hostname "spark" "tensorflow" "us-west-2"
           "ml.eia1.medium").
  now left.
Defined.


Lemma scoped_configuration_comes_from_the_file_witness :
  exists config,
    Examples.config_for_framework "pytorch" = Ok config
    /\ ((has_key config "scope" = true /\ Examples.pytorch_training = config)
        \/ (has_key config "scope" = false
            /\ exists scope,
                 In scope (keys config)
                 /\ dict_get config scope
                    = Some (JDict Examples.pytorch_training))).
Proof.
  apply (@scoped_configuration_comes_from_the_file
           Examples.config_for_framework "pytorch" None None).
  reflexivity.
Defined.

Lemma omitted_scope_witness :
  ImageUris._config_for_framework_and_scope Examples.config_for_framework
    "tensorflow" None None
  = Raise (ValueError
             (ImageUris.unsupported_message "image scope" None
                ["training"; "inference"])).
Proof.
  apply (proj2 (@omitted_scope Examples.config_for_framework "tensorflow"
                  Examples.tensorflow None eq_refl eq_refl));
    [reflexivity | discriminate].
Defined.

(** ** The tag and the base framework version *)

Section Tags.

Import ImageUris Spec.

Variable config_for_framework : string -> result dict.
Variable ecr_hostname : string -> result string.
Variable SPARK_NAME : string.

Lemma concat_nonempty sep x l : x <> "" -> String.concat sep (x :: l) <> "".
Proof.
  intros Hx. destruct x as [|a x]; [now elim Hx|].
  destruct l; simpl; discriminate.
Qed.

Lemma truthy_str_of x : truthy x = true -> str_of x <> "".
Proof.
  destruct x as [s|]; simpl; [|discriminate].
  intros H E. subst. discriminate H.
Qed.

(** X14. The tag that [_format_tag] builds is empty exactly when each of
    its four members is [None] or the empty string, which is when
    [retrieve] leaves out the [:] and the tag. *)
Theorem _format_tag_empty_iff
    (tag_prefix processor py_version container_version : pystr) :
  _format_tag tag_prefix processor py_version container_version = ""
  <-> truthy tag_prefix = false /\ truthy processor = false
      /\ truthy py_version = false /\ truthy container_version = false.
Proof.
  unfold _format_tag. split.
  - intros H.
    destruct (truthy tag_prefix) eqn:A; destruct (truthy processor) eqn:B;
      destruct (truthy py_version) eqn:C;
      destruct (truthy container_version) eqn:D;
      cbn [filter map] in H; rewrite ?A, ?B, ?C, ?D in H;
      cbn [map] in H; try (now repeat split);
      exfalso; revert H; apply concat_nonempty; now apply truthy_str_of.
  - intros (A & B & C & D). cbn [filter]. now rewrite A, B, C, D.
Qed.

(** X15. A framework other than [huggingface] does not look at the base
    framework version: [retrieve] returns the same for any two. *)
Theorem base_framework_version_only_for_huggingface
    (framework region : string)
    (version py_version instance_type accelerator_type image_scope
       container_version : pystr)
    (distribution : option (list string)) (base1 base2 : pystr)
    (training_compiler_config : option unit) :
  framework <> "huggingface" ->
  retrieve config_for_framework ecr_hostname SPARK_NAME framework region
    version py_version instance_type accelerator_type image_scope
    container_version distribution base1 training_compiler_config
  = retrieve config_for_framework ecr_hostname SPARK_NAME framework region
      version py_version instance_type accelerator_type image_scope
      container_version distribution base2 training_compiler_config.
Proof.
  intros Hfw. apply String.eqb_neq in Hfw.
  unfold retrieve. apply bind_ext. intros config.
  unfold retrieve_from_config, tag_prefix_of, HUGGING_FACE_FRAMEWORK.
  now rewrite Hfw.
Qed.

(** X16. For [huggingface], an alias of a base framework version and the
    version it stands for lead to the same configuration. *)
Theorem base_framework_alias_is_its_target
    (version_config aliases : dict) (alias full : string) :
  dict_get version_config "version_aliases" = Some (JDict aliases) ->
  dict_get aliases alias = Some (JStr full) ->
  dict_get aliases full = None ->
  base_framework_config version_config (Some alias)
  = base_framework_config version_config (Some full).
Proof.
  intros Ht Ha Hf. unfold base_framework_config. rewrite Ht.
  assert (T : json_truthy (JDict aliases) = true).
  { destruct aliases; [discriminate Ha | reflexivity]. }
  rewrite T. cbn [as_dict bind]. now rewrite Ha, Hf.
Qed.

(** X17. For [huggingface], when the configuration of the resolved
    version has no table [version_aliases], or an empty one, the
    resolution raises [UnboundLocalError], whatever base framework
    version is given. *)
Theorem huggingface_needs_an_alias_table
    (config versions version_config : dict) (region : string)
    (version py_version instance_type container_version : pystr)
    (distribution : option (list string)) (base_framework_version : pystr)
    (version' key : pystr) :
  _validate_version_and_set_if_needed version config "huggingface"
    = Ok version' ->
  getitem config (Some "versions") = Ok (JDict versions) ->
  _version_for_config version' config = Ok key ->
  getitem versions key = Ok (JDict version_config) ->
  dict_get version_config "version_aliases" = None
  \/ dict_get version_config "version_aliases" = Some (JDict []) ->
  retrieve_from_config ecr_hostname SPARK_NAME config "huggingface" region
    version py_version instance_type container_version distribution
    base_framework_version
  = Raise (UnboundLocalError "full_base_framework_version").
Proof.
  intros Hv Hvs Hk Hvc Ht. unfold retrieve_from_config.
  rewrite Hv. cbn [bind]. rewrite Hvs. cbn [bind as_dict].
  rewrite Hk. cbn [bind]. rewrite Hvc. cbn [bind as_dict].
  change ("huggingface" =? HUGGING_FACE_FRAMEWORK) with true. cbv iota.
  unfold base_framework_config.
  destruct Ht as [-> | ->]; reflexivity.
Qed.

End Tags.

Lemma base_framework_version_only_for_huggingface_witness :
  Examples.retrieve "pytorch" "us-west-2" None None (Some "ml.p3.2xlarge")
    None None None None (Some "pytorch1.6") None
  = Examples.retrieve "pytorch" "us-west-2" None None (Some "ml.p3.2xlarge")
      None None None None None None.
Proof.
  apply (@base_framework_version_only_for_huggingface
           Examples.config_for_framework Examples.ecr_hostname "spark"
           "pytorch").
  discriminate.
Defined.

Lemma base_framework_alias_is_its_target_witness :
  ImageUris.base_framework_config
    [ ("version_aliases", JDict [("pytorch1.7", JStr "pytorch1.7.1")]);
      ("pytorch1.7.1",
       Examples.leaf "huggingface-pytorch-training" ["py36"]) ]
    (Some "pytorch1.7")
  = ImageUris.base_framework_config
      [ ("version_aliases", JDict [("pytorch1.7", JStr "pytorch1.7.1")]);
        ("pytorch1.7.1",
         Examples.leaf "huggingface-pytorch-training" ["py36"]) ]
      (Some "pytorch1.7.1").
Proof.
  apply (@base_framework_alias_is_its_target _
           [("pytorch1.7", JStr "pytorch1.7.1")] "pytorch1.7" "pytorch1.7.1");
    reflexivity.
Defined.

Lemma huggingface_needs_an_alias_table_witness :
  ImageUris.retrieve (fun _ => Ok Examples.pytorch) Examples.ecr_hostname
    "spark" "huggingface" "us-west-2" (Some "1.6.0") (Some "py3")
    (Some "ml.p3.2xlarge") None (Some "training") None None
    (Some "pytorch1.6.0") None
  = Raise (UnboundLocalError "full_base_framework_version").
Proof.
  eapply (@huggingface_needs_an_alias_table Examples.ecr_hostname "spark"
            Examples.pytorch_training _ _ "us-west-2" (Some "1.6.0")
            (Some "py3") (Some "ml.p3.2xlarge") None None
            (Some "pytorch1.6.0") (Some "1.6.0") (Some "1.6.0"));
    [reflexivity | reflexivity | reflexivity | reflexivity | now left].
Defined.

(* ===================================================================== *)
(** * Further properties of [lambda_step.py]                               *)
(* ===================================================================== *)

(** ** The properties of the outputs *)

Section OutputProperties.

Lemma pystr_eqb_eq x y : pystr_eqb x y = true <-> x = y.
Proof.
  destruct x as [a|], y as [b|]; simpl; try (split; congruence).
  rewrite String.eqb_eq. split; congruence.
Qed.

Lemma pystr_eqb_refl x : pystr_eqb x x = true.
Proof. now apply pystr_eqb_eq. Qed.

Lemma names_get_set_same {A : Type} (d : list (pystr * A)) k v :
  LambdaStep.names_get (LambdaStep.names_set d k v) k = Some v.
Proof.
  induction d as [|[k' v'] d IH]; simpl.
  - now rewrite pystr_eqb_refl.
  - destruct (pystr_eqb k' k) eqn:E; simpl; now rewrite E.
Qed.

Lemma names_get_set_other {A : Type} (d : list (pystr * A)) k k' v :
  k' <> k ->
  LambdaStep.names_get (LambdaStep.names_set d k v) k'
  = LambdaStep.names_get d k'.
Proof.
  intros N. induction d as [|[k0 v0] d IH]; simpl.
  - destruct (pystr_eqb k k') eqn:E; [|reflexivity].
    apply pystr_eqb_eq in E. congruence.
  - destruct (pystr_eqb k0 k) eqn:E; simpl.
    + apply pystr_eqb_eq in E. subst k0.
      destruct (pystr_eqb k k') eqn:E'; [|reflexivity].
      apply pystr_eqb_eq in E'. congruence.
    + now rewrite IH.
Qed.

(** The entries of the dict after the outputs [outputs] are put into a
    dict [d] whose entries are the paths of their keys. *)
Lemma property_dict_from name outputs : forall d k path,
  (forall k path,
      LambdaStep.names_get d k = Some path ->
      path = "Steps." ++ name ++ ".OutputParameters['" ++ str_of k ++ "']") ->
  LambdaStep.names_get
    (fold_left
       (fun property_dict output =>
          LambdaStep.names_set property_dict (LambdaStep.output_name output)
            (("Steps." ++ name) ++ ".OutputParameters['"
             ++ str_of (LambdaStep.output_name output) ++ "']"))
       outputs d) k = Some path ->
  path = "Steps." ++ name ++ ".OutputParameters['" ++ str_of k ++ "']"
  /\ (LambdaStep.names_get d k = Some path
      \/ exists output, In output outputs
                        /\ LambdaStep.output_name output = k).
Proof.
  assert (Assoc : forall x y, ("Steps." ++ x) ++ y = "Steps." ++ x ++ y)
    by reflexivity.
  induction outputs as [|o outputs IH]; intros d k path Inv H; simpl in H.
  - split; [now apply Inv | now left].
  - apply IH in H.
    + destruct H as [E [H | (output & I & N)]].
      * split; [exact E|].
        destruct (pystr_eqb (LambdaStep.output_name o) k) eqn:K.
        -- apply pystr_eqb_eq in K. right. exists o. split; [now left | exact K].
        -- rewrite names_get_set_other in H; [now left|].
           intros ->. now rewrite pystr_eqb_refl in K.
      * split; [exact E|]. right. exists output. split; [now right | exact N].
    + intros k0 path0 H0.
      destruct (pystr_eqb (LambdaStep.output_name o) k0) eqn:K.
      * apply pystr_eqb_eq in K. subst k0.
        rewrite names_get_set_same in H0. injection H0 as <-. apply Assoc.
      * rewrite names_get_set_other in H0; [now apply Inv|].
        intros ->. now rewrite pystr_eqb_refl in K.
Qed.

Lemma property_dict_keeps name outputs k : forall d,
  LambdaStep.names_get d k <> None ->
  LambdaStep.names_get
    (fold_left
       (fun property_dict output =>
          LambdaStep.names_set property_dict (LambdaStep.output_name output)
            (("Steps." ++ name) ++ ".OutputParameters['"
             ++ str_of (LambdaStep.output_name output) ++ "']"))
       outputs d) k <> None.
Proof.
  induction outputs as [|o outputs IH]; intros d H; simpl; [exact H|].
  apply IH.
  destruct (pystr_eqb (LambdaStep.output_name o) k) eqn:K.
  - apply pystr_eqb_eq in K. rewrite <- K, names_get_set_same. discriminate.
  - rewrite names_get_set_other; [exact H|].
    intros E. rewrite E, pystr_eqb_refl in K. discriminate K.
Qed.

Lemma property_dict_has name outputs : forall d output,
  In output outputs ->
  LambdaStep.names_get
    (fold_left
       (fun property_dict output =>
          LambdaStep.names_set property_dict (LambdaStep.output_name output)
            (("Steps." ++ name) ++ ".OutputParameters['"
             ++ str_of (LambdaStep.output_name output) ++ "']"))
       outputs d) (LambdaStep.output_name output) <> None.
Proof.
  induction outputs as [|o outputs IH]; intros d output I; [now elim I|].
  simpl. destruct I as [->|I]; [|now apply IH].
  apply property_dict_keeps. rewrite names_get_set_same. discriminate.
Qed.

(** X18. The properties of a step hold one entry for each name of a
    declared output and no other entry, and the path of the entry of an
    output is the expression that [LambdaOutput.expr] gives for the name
    of the step, also when two outputs have the same name. *)
Theorem properties_agree_with_expr
    (name : string) (outputs : list LambdaStep.LambdaOutput) :
  (forall output,
      In output outputs ->
      exists path,
        LambdaStep.names_get (LambdaStep.property_dict name outputs)
          (LambdaStep.output_name output) = Some path
        /\ LambdaStep.LambdaOutput_expr output name
           = [("Get", LambdaStep.VStr path)])
  /\ (forall k path,
        LambdaStep.names_get (LambdaStep.property_dict name outputs) k
          = Some path ->
        exists output, In output outputs /\ LambdaStep.output_name output = k).
Proof.
  unfold LambdaStep.property_dict. cbv zeta. split.
  - intros output I.
    destruct (LambdaStep.names_get _ (LambdaStep.output_name output))
      as [path|] eqn:E.
    + exists path. split; [reflexivity|].
      apply property_dict_from in E as [-> _]; [reflexivity|].
      intros k path0 H. discriminate H.
    + exfalso. revert E. now apply property_dict_has.
  - intros k path H.
    apply property_dict_from in H as [_ [H | H]]; [discriminate H | exact H |].
    intros k0 path0 H0. discriminate H0.
Qed.

End OutputProperties.

Lemma properties_agree_with_expr_witness :
  exists path,
    LambdaStep.names_get
      (LambdaStep.property_dict "MyLambdaStep"
         (LambdaStep.outputs
            (Examples.step
               (Examples.failing_lambda "us-west-2" (ValueError "")))))
      (Some "A") = Some path
    /\ LambdaStep.LambdaOutput_expr
         (LambdaStep.new_LambdaOutput (Some (Some "A"))
            (Some LambdaStep.Integer)) "MyLambdaStep"
       = [("Get", LambdaStep.VStr path)].
Proof.
  apply (proj1 (properties_agree_with_expr "MyLambdaStep"
                  (LambdaStep.outputs
                     (Examples.step
                        (Examples.failing_lambda "us-west-2"
                           (ValueError "")))))
           (LambdaStep.new_LambdaOutput (Some (Some "A"))
              (Some LambdaStep.Integer))).
  now left.
Defined.

(** ** The fields of the request *)

Section RequestFields.

Variable super_to_request : LambdaStep.LambdaStep -> LambdaStep.request.

Lemma request_get_set_other d k k' v :
  k' <> k ->
  LambdaStep.request_get (LambdaStep.request_set d k v) k'
  = LambdaStep.request_get d k'.
Proof.
  intros N. induction d as [|[k0 v0] d IH]; simpl.
  - destruct (String.eqb_spec k k'); [congruence | reflexivity].
  - destruct (String.eqb_spec k0 k) as [->|]; simpl.
    + destruct (String.eqb_spec k k'); [congruence | reflexivity].
    + now rewrite IH.
Qed.

Lemma request_get_update_other other k : forall d,
  LambdaStep.request_get other k = None ->
  LambdaStep.request_get (LambdaStep.request_update d other) k
  = LambdaStep.request_get d k.
Proof.
  unfold LambdaStep.request_update.
  induction other as [|[k0 v0] other IH]; intros d H; simpl; [reflexivity|].
  simpl in H. destruct (String.eqb_spec k0 k) as [->|N]; [discriminate H|].
  rewrite IH by exact H. apply request_get_set_other. congruence.
Qed.

Lemma request_get_absent d k :
  ~ In k (map fst d) -> LambdaStep.request_get d k = None.
Proof.
  induction d as [|[k0 v0] d IH]; simpl; [reflexivity|].
  intros N. destruct (String.eqb_spec k0 k) as [->|]; [|apply IH]; tauto.
Qed.

Lemma request_get_update_in other k v : forall d,
  NoDup (map fst other) ->
  In (k, v) other ->
  LambdaStep.request_get (LambdaStep.request_update d other) k = Some v.
Proof.
  induction other as [|[k0 v0] other IH]; intros d D I; [now elim I|].
  simpl in D. inversion D as [|? ? N D']; subst.
  change (LambdaStep.request_update d ((k0, v0) :: other))
    with (LambdaStep.request_update (LambdaStep.request_set d k0 v0) other).
  destruct I as [E|I].
  - injection E as -> ->.
    rewrite request_get_update_other by now apply request_get_absent.
    apply request_get_set.
  - now apply IH.
Qed.

(** X19. The request of a step holds, under [FunctionArn], the
    identifier that [_get_function_arn] resolves.  A step whose function
    has an identifier gets its request without the function being
    created, so whatever its creation would return or raise. *)
Theorem to_request_holds_the_function_arn (self : LambdaStep.LambdaStep) :
  (forall request,
      LambdaStep.to_request super_to_request self = Ok request ->
      exists arn,
        LambdaStep._get_function_arn self = Ok arn
        /\ LambdaStep.request_get request "FunctionArn" = Some arn)
  /\ (forall arn,
        LambdaStep.function_arn (LambdaStep.lambda_func self) = Some arn ->
        exists request,
          LambdaStep.to_request super_to_request self = Ok request
          /\ LambdaStep.request_get request "FunctionArn"
             = Some (LambdaStep.VStr arn)).
Proof.
  assert (Get : forall d arn outputs,
    LambdaStep.request_get
      (LambdaStep.request_set
         (LambdaStep.request_set d "FunctionArn" arn)
         "OutputParameters" outputs) "FunctionArn" = Some arn).
  { intros d arn outputs.
    rewrite request_get_set_other by discriminate.
    apply request_get_set. }
  split.
  - intros request H. unfold LambdaStep.to_request in H.
    destruct (LambdaStep._get_function_arn self) as [arn|e];
      cbn [bind] in H; [|discriminate H].
    injection H as <-. exists arn. split; [reflexivity | apply Get].
  - intros arn H. unfold LambdaStep.to_request, LambdaStep._get_function_arn.
    rewrite H. cbn [is_none bind LambdaStep.value_of_pystr].
    eexists. split; [reflexivity | apply Get].
Qed.

(** X20. The request keeps the fields of the request of the parent class:
    a key other than [FunctionArn] and [OutputParameters] that the cache
    configuration does not set has the value that the parent class gave
    it. *)
Theorem to_request_keeps_the_base_fields
    (self : LambdaStep.LambdaStep) (request : LambdaStep.request)
    (key : string) :
  LambdaStep.to_request super_to_request self = Ok request ->
  key <> "FunctionArn" ->
  key <> "OutputParameters" ->
  (forall config, LambdaStep.cache_config self = Some config ->
                  LambdaStep.request_get config key = None) ->
  LambdaStep.request_get request key
  = LambdaStep.request_get (super_to_request self) key.
Proof.
  intros H NF NO NC. unfold LambdaStep.to_request in H.
  destruct (LambdaStep._get_function_arn self) as [arn|e];
    cbn [bind] in H; [|discriminate H].
  injection H as <-.
  rewrite !request_get_set_other by assumption.
  destruct (LambdaStep.cache_config self) as [config|]; [|reflexivity].
  apply request_get_update_other. now apply NC.
Qed.

(** X21. The request holds the fields of the cache configuration: a key
    of it, other than [FunctionArn] and [OutputParameters], has in the
    request the value that the cache configuration gives it, also when the
    parent class had set this key. *)
Theorem to_request_merges_the_cache_config
    (self : LambdaStep.LambdaStep) (request config : LambdaStep.request)
    (key : string) (v : LambdaStep.value) :
  LambdaStep.to_request super_to_request self = Ok request ->
  LambdaStep.cache_config self = Some config ->
  NoDup (map fst config) ->
  In (key, v) config ->
  key <> "FunctionArn" ->
  key <> "OutputParameters" ->
  LambdaStep.request_get request key = Some v.
Proof.
  intros H C D I NF NO. unfold LambdaStep.to_request in H.
  destruct (LambdaStep._get_function_arn self) as [arn|e];
    cbn [bind] in H; [|discriminate H].
  injection H as <-.
  rewrite !request_get_set_other by assumption.
  rewrite C. now apply request_get_update_in.
Qed.

End RequestFields.

Lemma to_request_holds_the_function_arn_witness :
  exists request,
    LambdaStep.to_request Examples.super_to_request
      (Examples.step
         (Examples.existing_lambda
            "arn:aws:lambda:us-west-2:123456789012:function:preprocess"))
    = Ok request
    /\ LambdaStep.request_get request "FunctionArn"
       = Some (LambdaStep.VStr
                 "arn:aws:lambda:us-west-2:123456789012:function:preprocess").
Proof.
  apply (proj2 (to_request_holds_the_function_arn Examples.super_to_request
                  (Examples.step (Examples.existing_lambda _)))).
  reflexivity.
Defined.

Lemma to_request_keeps_the_base_fields_witness :
  LambdaStep.request_get
    [ ("Name", LambdaStep.VStr "MyLambdaStep");
      ("Type", LambdaStep.VStr "Lambda");
      ("Arguments", LambdaStep.VDict []);
      ("CacheConfig",
       LambdaStep.VDict [ ("Enabled", LambdaStep.VStr "true");
                          ("ExpireAfter", LambdaStep.VStr "PT1H") ]);
      ("FunctionArn", LambdaStep.VStr "arn:x");
      ("OutputParameters",
       LambdaStep.VList
         [ LambdaStep.VDict [ ("OutputName", LambdaStep.VStr "A");
                              ("OutputType", LambdaStep.VStr "String") ] ]) ]
    "Type"
  = LambdaStep.request_get
      (Examples.super_to_request
         (Examples.cached_step (Examples.existing_lambda "arn:x"))) "Type".
Proof.
  apply (@to_request_keeps_the_base_fields Examples.super_to_request
           (Examples.cached_step (Examples.existing_lambda "arn:x")));
    [reflexivity | discriminate | discriminate |].
  intros config C. injection C as <-. reflexivity.
Defined.

Lemma to_request_merges_the_cache_config_witness :
  exists request,
    LambdaStep.to_request Examples.super_to_request
      (Examples.cached_step (Examples.existing_lambda "arn:x")) = Ok request
    /\ LambdaStep.request_get request "CacheConfig"
       = Some (LambdaStep.VDict
                 [ ("Enabled", LambdaStep.VStr "true");
                   ("ExpireAfter", LambdaStep.VStr "PT1H") ]).
Proof.
  eexists. split; [reflexivity|].
  eapply (@to_request_merges_the_cache_config Examples.super_to_request
            (Examples.cached_step (Examples.existing_lambda "arn:x")));
    [reflexivity | reflexivity | | now left | discriminate | discriminate].
  repeat constructor. intros [].
Defined.

(** ** The other outcomes of the creation of the function *)

Section Creation.

(** X22. For a function without an identifier: when the account cannot
    be determined, the error of [account_id()] reaches the caller, except
    that a [ValueError] whose text holds [ResourceConflictException]
    becomes an [UnboundLocalError], the handler having no account to put
    into the identifier; and when the creation returns, the identifier is
    the [FunctionArn] of its response, and a response without this key
    raises [KeyError]. *)
Theorem outcomes_of_the_creation (self : LambdaStep.LambdaStep) :
  LambdaStep.function_arn (LambdaStep.lambda_func self) = None ->
  (forall e,
      LambdaStep.account_id (LambdaStep.lambda_func self) = Raise e ->
      (forall msg, e = ValueError msg ->
                   contains "ResourceConflictException" msg = false) ->
      LambdaStep._get_function_arn self = Raise e)
  /\ (forall msg,
        LambdaStep.account_id (LambdaStep.lambda_func self)
          = Raise (ValueError msg) ->
        contains "ResourceConflictException" msg = true ->
        LambdaStep._get_function_arn self
        = Raise (UnboundLocalError "account_id"))
  /\ (forall account response,
        LambdaStep.account_id (LambdaStep.lambda_func self) = Ok account ->
        LambdaStep.create (LambdaStep.lambda_func self) = Ok response ->
        LambdaStep._get_function_arn self
        = match LambdaStep.request_get response "FunctionArn" with
          | Some arn => Ok arn
          | None => Raise (KeyError (Some "FunctionArn"))
          end).
Proof.
  intros Harn. unfold LambdaStep._get_function_arn. rewrite Harn.
  cbn [is_none]. split; [|split].
  - intros e Hacc He. rewrite Hacc. cbn [bind].
    destruct e; try reflexivity.
    cbn [LambdaStep.except_ValueError]. now rewrite (He msg eq_refl).
  - intros msg Hacc Hmarker. rewrite Hacc.
    cbn [bind LambdaStep.except_ValueError]. now rewrite Hmarker.
  - intros account response Hacc Hcreate. rewrite Hacc, Hcreate.
    cbn [bind].
    now destruct (LambdaStep.request_get response "FunctionArn").
Qed.

End Creation.

Lemma outcomes_of_the_creation_witness :
  LambdaStep._get_function_arn
    (Examples.step
       (Examples.created_lambda
          [("FunctionName", LambdaStep.VStr "preprocess")]))
  = Raise (KeyError (Some "FunctionArn"))
  /\ LambdaStep._get_function_arn
       (Examples.step
          (Examples.created_lambda
             [("FunctionArn", LambdaStep.VStr "arn:new")]))
     = Ok (LambdaStep.VStr "arn:new").
Proof.
  split.
  - apply (proj2 (proj2 (@outcomes_of_the_creation
             (Examples.step
                (Examples.created_lambda
                   [("FunctionName", LambdaStep.VStr "preprocess")]))
             eq_refl)) "123456789012"
             [("FunctionName", LambdaStep.VStr "preprocess")]);
      reflexivity.
  - apply (proj2 (proj2 (@outcomes_of_the_creation
             (Examples.step
                (Examples.created_lambda
                   [("FunctionArn", LambdaStep.VStr "arn:new")]))
             eq_refl)) "123456789012"
             [("FunctionArn", LambdaStep.VStr "arn:new")]);
      reflexivity.
Defined.

(** ** Accelerator types that are refused *)

Section Accelerators.

Import ImageUris Spec.

Variable config_for_framework : string -> result dict.
Variable ecr_hostname : string -> result string.
Variable SPARK_NAME : string.

(** X23. An accelerator type that is given and is neither one that
    begins with [ml.eia] nor [local_sagemaker_notebook] fails the
    resolution with the [ValueError] that names it, once the file of the
    framework is loaded and whatever the scope and the other arguments
    are. *)
Theorem invalid_accelerator_type_is_refused
    (framework region accelerator_type : string) (config : dict)
    (version py_version instance_type image_scope container_version : pystr)
    (distribution : option (list string)) (base_framework_version : pystr) :
  config_for_framework framework = Ok config ->
  accelerator_type <> "" ->
  ~ valid_accelerator accelerator_type ->
  retrieve config_for_framework ecr_hostname SPARK_NAME framework region
    version py_version instance_type (Some accelerator_type) image_scope
    container_version distribution base_framework_version None
  = Raise (ValueError
      ("Invalid SageMaker Elastic Inference accelerator type: "
       ++ accelerator_type
       ++ ". See https://docs.aws.amazon.com/sagemaker/latest/dg/ei.html")).
Proof.
  intros Hcfg Hne Hinv.
  unfold retrieve, _config_for_framework_and_scope. cbn [is_some].
  rewrite Hcfg. cbn [bind].
  assert (T : truthy (Some accelerator_type) = true).
  { destruct accelerator_type; [now elim Hne | reflexivity]. }
  rewrite T. cbn [str_of]. unfold _validate_accelerator_type.
  destruct (startswith accelerator_type "ml.eia") eqn:S.
  - elim Hinv. now left.
  - destruct (String.eqb_spec accelerator_type "local_sagemaker_notebook")
      as [E|E].
    + elim Hinv. now right.
    + reflexivity.
Qed.

End Accelerators.

Lemma invalid_accelerator_type_is_refused_witness :
  Examples.retrieve "tensorflow" "us-west-2" (Some "2.3.1") None
    (Some "ml.c5.xlarge") (Some "ml.p3.2xlarge") (Some "inference") None
    None None None
  = Raise (ValueError
      ("Invalid SageMaker Elastic Inference accelerator type: "
       ++ "ml.p3.2xlarge"
       ++ ". See https://docs.aws.amazon.com/sagemaker/latest/dg/ei.html")).
Proof.
  apply (@invalid_accelerator_type_is_refused Examples.config_for_framework
           Examples.ecr_hostname "spark" "tensorflow" "us-west-2"
           "ml.p3.2xlarge" Examples.tensorflow);
    [reflexivity | discriminate |].
  intros [H|H]; discriminate H.
Defined.

Lemma _registry_from_region_is_the_lookup_witness :
  ImageUris._registry_from_region "eu-west-1"
    [ ("us-west-2", JStr "763104351884") ]
  = Raise (ValueError
             (ImageUris.unsupported_message "region" (Some "eu-west-1")
                ["us-west-2"]))
  /\ ImageUris._registry_from_region "us-west-2"
       [ ("us-west-2", JStr "763104351884") ] = Ok "763104351884".
Proof.
  split.
  - apply (proj1 (proj2 (_registry_from_region_is_the_lookup "eu-west-1"
                           [ ("us-west-2", JStr "763104351884") ]))).
    reflexivity.
  - apply (proj1 (_registry_from_region_is_the_lookup "us-west-2"
                    [ ("us-west-2", JStr "763104351884") ])).
    reflexivity.
Defined.

Lemma _format_tag_empty_iff_witness :
  ImageUris._format_tag None (Some "") None None = "".
Proof.
  apply (proj2 (_format_tag_empty_iff None (Some "") None None)).
  repeat split.
Defined.
